(** * The MOS 6502 board of qemu-6502 (hw/6502_dp264.c)

    A shallow embedding of the board file: the console read handler, the
    timer callback, the two I/O callbacks and the machine initialisation,
    written over an explicit machine state.  The host runtime the board
    calls into (CPU core, memory core, console, keyboard buffer, timer,
    image loader) is not part of the board file; its operations are
    modelled below from the design document and marked as such. *)

From Stdlib Require Import ZArith Lia.
From stdpp Require Import gmap strings list fin_maps.

Local Open Scope string_scope.
Local Open Scope list_scope.
Local Open Scope Z_scope.

(** ** Constants of the board file *)

Definition BIOS_FILENAME : string := "6502_bios.rom".

(** I/O addresses are relative to the start of the I/O region. *)
Definition KEYB_READ_ADDR : Z := 0x00.
Definition SCREEN_WRITE_ADDR : Z := 0x00.
Definition CON_ECHO_WRITE_ADDR : Z := 0x01.
Definition TIMER_READ_ADDR : Z := 0x02.
Definition TIMER_WRITE_ADDR : Z := 0x02.

(** The C character constants the board compares bytes with. *)
Definition char_slash : Z := 47.   (* '/' *)
Definition char_star : Z := 42.    (* '*' *)
Definition char_minus : Z := 45.   (* '-' *)
Definition char_lf : Z := 10.      (* '\n' *)
Definition char_cr : Z := 13.      (* '\r' *)

(** The cast [(uint8_t)value]: the low eight bits. *)
Definition uint8_t (value : Z) : Z := value mod 2 ^ 8.

(** ** Data of the host runtime *)

(** Modelled from the spec: the CPU_INTERRUPT_* masks of the CPU header,
    which is not in the board file, as the three interrupt classes. *)
Inductive interrupt := CPU_INTERRUPT_IRQ | CPU_INTERRUPT_NMI | CPU_INTERRUPT_RESET.

#[global] Instance interrupt_eq_dec : EqDecision interrupt.
Proof. solve_decision. Defined.

(** Modelled from the spec: the CPU state the board touches, the program
    counter and one pending flag per interrupt class. *)
Record CPUState := mkCPU {
  pc : Z;
  irq_pending : bool;
  nmi_pending : bool;
  reset_pending : bool;
}.

(** Modelled from the spec: the console device, with the bytes written to
    it so far, its local echo switch and whether the board's handlers are
    registered on its input stream. *)
Record CharDriverState := mkChr {
  chr_opts : list (string * string);
  chr_out : list Z;
  chr_echo : bool;
  chr_handlers : bool;
}.

(** How a region is backed: [memory_region_init_ram] or
    [memory_region_init_io] with the board's [io_ops]. *)
Inductive backing := ram_block | io_callbacks.

#[global] Instance backing_eq_dec : EqDecision backing.
Proof. solve_decision. Defined.

(** A memory region: the fields that [memory_region_init_ram],
    [memory_region_init_io], [memory_region_set_readonly] and
    [memory_region_add_subregion] set, and the bytes of a RAM block by
    offset (an absent offset reads as 0). *)
Record MemoryRegion := mkRegion {
  mr_name : string;
  mr_size : Z;
  mr_backing : backing;
  mr_readonly : bool;
  mr_addr : Z;
  mr_ram : gmap Z Z;
}.

(** An argument of a [fprintf] call. *)
Inductive fmt_arg := arg_llu (n : Z) | arg_s (s : string).

#[global] Instance fmt_arg_eq_dec : EqDecision fmt_arg.
Proof. solve_decision. Defined.

(** The calls the board makes into the host runtime, recorded in program
    order. *)
Inductive host_call :=
| call_cpu_init
| call_get_system_memory
| call_set_pc (v : Z)
| call_memory_region_init_ram (name : string) (size : Z)
| call_memory_region_init_io (name : string) (size : Z)
| call_memory_region_set_readonly (name : string) (readonly : bool)
| call_vmstate_register_ram_global (name : string)
| call_memory_region_add_subregion (offset : Z) (name : string)
| call_load_image_targphys (filename : string) (addr max_sz : Z)
| call_exit (status : Z)
| call_qemu_opts_create (name : string)
| call_qemu_opt_set (name value : string)
| call_text_console_init
| call_get_displaystate
| call_text_consoles_set_display
| call_console_select (index : Z)
| call_qemu_chr_add_handlers
| call_init_keyboard
| call_init_timer
| call_cpu_interrupt (mask : interrupt)
| call_write_char (c : Z)
| call_read_char
| call_get_timer_value
| call_set_timer_value (v : Z)
| call_qemu_chr_fe_write (buf : list Z)
| call_qemu_chr_fe_set_echo (echo : bool)
| call_fprintf_stderr (format : string) (args : list fmt_arg).

#[global] Instance host_call_eq_dec : EqDecision host_call.
Proof. solve_decision. Defined.

(** The machine: the two globals of the board file ([cpu], [console]), the
    global [bios_name], and the state of the host runtime behind them. *)
Record Machine := mkMachine {
  cpu : CPUState;
  console : CharDriverState;
  bios_name : option string;
  files : gmap string (list Z);
  address_space : list MemoryRegion;
  keyboard : list Z;
  timer_value : Z;
  timer_tick : bool;
  stderr : list (string * list fmt_arg);
  trace : list host_call;
}.

Definition with_cpu (c : CPUState) (m : Machine) : Machine :=
  mkMachine c (console m) (bios_name m) (files m) (address_space m)
    (keyboard m) (timer_value m) (timer_tick m) (stderr m) (trace m).

Definition with_console (c : CharDriverState) (m : Machine) : Machine :=
  mkMachine (cpu m) c (bios_name m) (files m) (address_space m)
    (keyboard m) (timer_value m) (timer_tick m) (stderr m) (trace m).

Definition with_bios_name (b : option string) (m : Machine) : Machine :=
  mkMachine (cpu m) (console m) b (files m) (address_space m)
    (keyboard m) (timer_value m) (timer_tick m) (stderr m) (trace m).

Definition with_address_space (l : list MemoryRegion) (m : Machine) : Machine :=
  mkMachine (cpu m) (console m) (bios_name m) (files m) l
    (keyboard m) (timer_value m) (timer_tick m) (stderr m) (trace m).

Definition with_keyboard (k : list Z) (m : Machine) : Machine :=
  mkMachine (cpu m) (console m) (bios_name m) (files m) (address_space m)
    k (timer_value m) (timer_tick m) (stderr m) (trace m).

Definition with_timer (v : Z) (tick : bool) (m : Machine) : Machine :=
  mkMachine (cpu m) (console m) (bios_name m) (files m) (address_space m)
    (keyboard m) v tick (stderr m) (trace m).

Definition with_stderr (s : list (string * list fmt_arg)) (m : Machine) : Machine :=
  mkMachine (cpu m) (console m) (bios_name m) (files m) (address_space m)
    (keyboard m) (timer_value m) (timer_tick m) s (trace m).

(** Record one more host call. *)
Definition called (c : host_call) (m : Machine) : Machine :=
  mkMachine (cpu m) (console m) (bios_name m) (files m) (address_space m)
    (keyboard m) (timer_value m) (timer_tick m) (stderr m)
    (trace m ++ [c]).

(** The machine before [mos6502_init] has run: nothing is registered, and
    the host supplies the [-bios] option and its files. *)
Definition uninitialized (bios : option string) (fs : gmap string (list Z)) : Machine :=
  mkMachine (mkCPU 0 false false false) (mkChr [] [] false false) bios fs []
    [] 0 false [] [].

(** ** The monad of board code: machine state, and process exit *)

Inductive outcome (A : Type) :=
| Returned (a : A) (m : Machine)
| Exited (status : Z) (m : Machine).
Arguments Returned {A} a m.
Arguments Exited {A} status m.

Definition M (A : Type) : Type := Machine → outcome A.

#[global] Instance M_ret : MRet M := λ A a m, Returned a m.
#[global] Instance M_bind : MBind M := λ A B f c m,
  match c m with
  | Returned a m' => f a m'
  | Exited status m' => Exited status m'
  end.

(** The machine an outcome leaves behind. *)
Definition machine_of {A} (o : outcome A) : Machine :=
  match o with Returned _ m => m | Exited _ m => m end.

(** A host call that only changes the machine. *)
Definition host (c : host_call) (f : Machine → Machine) : M unit :=
  λ m, Returned tt (f (called c m)).

(** ** Operations of the host runtime *)

(** The CPU core, the memory core, the console, the timer, the keyboard
    buffer and the image loader are code of the emulator outside the board
    file.  Each operation below records its call and does to the machine
    what the design document says of it. *)

(** Modelled from the spec: [cpu_init] of the CPU core, which hands out a
    CPU with no interrupt pending. *)
Definition cpu_init : M unit :=
  host call_cpu_init (with_cpu (mkCPU 0 false false false)).

(** Modelled from the spec: the settable program counter of the CPU core,
    for the assignment [cpu->pc = v]. *)
Definition set_pc (v : Z) : M unit :=
  host (call_set_pc v)
    (λ m, with_cpu (mkCPU v (irq_pending (cpu m)) (nmi_pending (cpu m))
                      (reset_pending (cpu m))) m).

(** Modelled from the spec: [assert_interrupt(class)] of the CPU core
    sets the pending flag of the class and leaves the others. *)
Definition assert_interrupt (mask : interrupt) (c : CPUState) : CPUState :=
  match mask with
  | CPU_INTERRUPT_IRQ => mkCPU (pc c) true (nmi_pending c) (reset_pending c)
  | CPU_INTERRUPT_NMI => mkCPU (pc c) (irq_pending c) true (reset_pending c)
  | CPU_INTERRUPT_RESET => mkCPU (pc c) (irq_pending c) (nmi_pending c) true
  end.

(** Modelled from the spec: [cpu_interrupt] of the CPU core asserts one
    interrupt class on the CPU. *)
Definition cpu_interrupt (mask : interrupt) : M unit :=
  host (call_cpu_interrupt mask) (λ m, with_cpu (assert_interrupt mask (cpu m)) m).

(** Modelled from the spec: [memory_region_init_ram] of the memory core
    describes a region backed by a RAM block of [size] bytes, all 0 ([g_new]
    is folded into it). *)
Definition memory_region_init_ram (name : string) (size : Z) : M MemoryRegion :=
  λ m, Returned (mkRegion name size ram_block false 0 ∅)
         (called (call_memory_region_init_ram name size) m).

(** Modelled from the spec: [memory_region_init_io] of the memory core
    describes a region of [size] bytes served by the callbacks of [io_ops]. *)
Definition memory_region_init_io (name : string) (size : Z) : M MemoryRegion :=
  λ m, Returned (mkRegion name size io_callbacks false 0 ∅)
         (called (call_memory_region_init_io name size) m).

(** Modelled from the spec: [memory_region_set_readonly] of the memory
    core sets the read-only mark of a region. *)
Definition memory_region_set_readonly (mr : MemoryRegion) (readonly : bool) : M MemoryRegion :=
  λ m, Returned (mkRegion (mr_name mr) (mr_size mr) (mr_backing mr) readonly
                   (mr_addr mr) (mr_ram mr))
         (called (call_memory_region_set_readonly (mr_name mr) readonly) m).

(** Modelled from the spec: [get_system_memory] of the memory core
    returns the one container of the whole address space, the field
    [address_space] of the machine. *)
Definition get_system_memory : M unit :=
  host call_get_system_memory id.

(** Modelled from the spec: [vmstate_register_ram_global] names a RAM
    block for saved machine states; nothing of this machine changes. *)
Definition vmstate_register_ram_global (mr : MemoryRegion) : M unit :=
  host (call_vmstate_register_ram_global (mr_name mr)) id.

(** Modelled from the spec: [memory_region_add_subregion] of the memory
    core registers a region in the address space at [offset]; the regions
    are kept in the order of registration. *)
Definition memory_region_add_subregion (offset : Z) (mr : MemoryRegion) : M unit :=
  host (call_memory_region_add_subregion offset (mr_name mr))
    (λ m, with_address_space
            (address_space m ++
             [mkRegion (mr_name mr) (mr_size mr) (mr_backing mr) (mr_readonly mr)
                offset (mr_ram mr)]) m).

(** Modelled from the spec: a region contains the addresses of
    [base, base+size). *)
Definition region_contains (r : MemoryRegion) (a : Z) : bool :=
  (mr_addr r <=? a) && (a <? mr_addr r + mr_size r).

(** Modelled from the spec: the registered regions that contain an
    address, with their positions in the address space. *)
Fixpoint regions_at (a : Z) (i : nat) (l : list MemoryRegion) : list (nat * MemoryRegion) :=
  match l with
  | [] => []
  | r :: l' =>
      if region_contains r a then (i, r) :: regions_at a (S i) l'
      else regions_at a (S i) l'
  end.

(** Modelled from the spec: the address dispatcher of the memory core
    locates the unique region whose [base, base+size) contains the
    address; where there is none, or more than one, it resolves nothing. *)
Definition dispatch (a : Z) (m : Machine) : option (nat * MemoryRegion) :=
  match regions_at a 0 (address_space m) with
  | [ir] => Some ir
  | _ => None
  end.

(** Modelled from the spec: the direct byte access to the RAM block of a
    region, a store and a load at an offset. *)
Definition store_byte (offset value : Z) (r : MemoryRegion) : MemoryRegion :=
  mkRegion (mr_name r) (mr_size r) (mr_backing r) (mr_readonly r) (mr_addr r)
    (<[offset := value]> (mr_ram r)).

Definition load_byte (offset : Z) (r : MemoryRegion) : Z :=
  default 0 (mr_ram r !! offset).

(** Modelled from the spec: the image loader puts a byte of the image at
    a physical address, into the RAM block of the region there, read-only
    or not, and the bytes of an image one after the other. *)
Definition rom_poke (a value : Z) (m : Machine) : Machine :=
  match dispatch a m with
  | Some (i, r) =>
      match mr_backing r with
      | ram_block =>
          with_address_space (alter (store_byte (a - mr_addr r) value) i (address_space m)) m
      | io_callbacks => m
      end
  | None => m
  end.

Fixpoint rom_blit (a : Z) (image : list Z) (m : Machine) : Machine :=
  match image with
  | [] => m
  | b :: image' => rom_blit (a + 1) image' (rom_poke a b m)
  end.

(** Modelled from the spec: the image loader, [load(path, destination,
    max_size)].  It fails (a negative result) when the file cannot be read
    or is longer than [max_sz]; otherwise the bytes are placed verbatim
    from [addr] on and the length is returned. *)
Definition load_image_targphys (filename : string) (addr max_sz : Z) : M Z :=
  λ m,
    let m1 := called (call_load_image_targphys filename addr max_sz) m in
    match files m !! filename with
    | None => Returned (-1) m1
    | Some image =>
        let size := Z.of_nat (length image) in
        if max_sz <? size then Returned (-1) m1
        else Returned size (rom_blit addr image m1)
    end.

(** Modelled from the spec: the global [bios_name] of the emulator, set
    from its [-bios] option, read and assigned. *)
Definition get_bios_name : M (option string) :=
  λ m, Returned (bios_name m) m.

Definition set_bios_name (name : string) : M unit :=
  λ m, Returned tt (with_bios_name (Some name) m).

(** [exit(status)] of the C library: the process ends here. *)
Definition exit {A} (status : Z) : M A :=
  λ m, Exited status (called (call_exit status) m).

(** [fprintf(stderr, format, ...)] of the C library: one more line on
    stderr, kept as the format and its arguments. *)
Definition fprintf_stderr (format : string) (args : list fmt_arg) : M unit :=
  host (call_fprintf_stderr format args)
    (λ m, with_stderr (stderr m ++ [(format, args)]) m).

(** Modelled from the spec: the options of the console to construct, an
    empty list and one more option. *)
Definition qemu_opts_create (name : string) : M (list (string * string)) :=
  λ m, Returned [] (called (call_qemu_opts_create name) m).

Definition qemu_opt_set (opts : list (string * string)) (name value : string)
  : M (list (string * string)) :=
  λ m, Returned (opts ++ [(name, value)]) (called (call_qemu_opt_set name value) m).

(** Modelled from the spec: [text_console_init] constructs the console
    device: nothing written, echo off, no input callback. *)
Definition text_console_init (opts : list (string * string)) : M unit :=
  host call_text_console_init (with_console (mkChr opts [] false false)).

(** Modelled from the spec: the display calls of the console
    construction; nothing of this machine changes. *)
Definition get_displaystate : M unit :=
  host call_get_displaystate id.

Definition text_consoles_set_display : M unit :=
  host call_text_consoles_set_display id.

Definition console_select (index : Z) : M unit :=
  host (call_console_select index) id.

(** Modelled from the spec: [qemu_chr_add_handlers] registers the
    board's [can_read_handler] and [read_handler] on the input stream of
    the console. *)
Definition qemu_chr_add_handlers : M unit :=
  host call_qemu_chr_add_handlers
    (λ m, with_console (mkChr (chr_opts (console m)) (chr_out (console m))
                          (chr_echo (console m)) true) m).

(** Modelled from the spec: [write_output(bytes)] of the console device. *)
Definition qemu_chr_fe_write (buf : list Z) : M unit :=
  host (call_qemu_chr_fe_write buf)
    (λ m, with_console (mkChr (chr_opts (console m)) (chr_out (console m) ++ buf)
                          (chr_echo (console m)) (chr_handlers (console m))) m).

(** Modelled from the spec: [set_echo(bool)] of the console device. *)
Definition qemu_chr_fe_set_echo (echo : bool) : M unit :=
  host (call_qemu_chr_fe_set_echo echo)
    (λ m, with_console (mkChr (chr_opts (console m)) (chr_out (console m))
                          echo (chr_handlers (console m))) m).

(** Modelled from the spec: [init_timer] registers the periodic callback
    of the timer device, the board's [timer_callback]. *)
Definition init_timer : M unit :=
  host call_init_timer (λ m, with_timer (timer_value m) true m).

(** Modelled from the spec: [read_value() -> integer] of the timer device. *)
Definition get_timer_value : M Z :=
  λ m, Returned (timer_value m) (called call_get_timer_value m).

(** Modelled from the spec: [set_value(integer)] of the timer device. *)
Definition set_timer_value (v : Z) : M unit :=
  host (call_set_timer_value v) (λ m, with_timer v (timer_tick m) m).

(** Modelled from the spec: [init_keyboard] constructs the keyboard
    buffer, empty. *)
Definition init_keyboard : M unit :=
  host call_init_keyboard (with_keyboard []).

(** Modelled from the spec: [write_char] of the keyboard buffer makes a
    byte available as an input character for a later read. *)
Definition write_char (c : Z) : M unit :=
  host (call_write_char c) (λ m, with_keyboard (keyboard m ++ [c]) m).

Section Board.

(** What [read_char] returns when no character is waiting; the design
    leaves the value open. *)
Variable keyb_not_ready : Z.

(** Modelled from the spec: [read_char] of the keyboard buffer returns
    the next input character at once, or the not-ready value. *)
Definition read_char : M Z :=
  λ m,
    match keyboard m with
    | c :: rest => Returned c (with_keyboard rest (called call_read_char m))
    | [] => Returned keyb_not_ready (called call_read_char m)
    end.

(** ** The board file *)

Definition can_read_handler : M Z := mret 1.

(** The body of the loop of [read_handler], on the byte [data[i]]. *)
Definition read_handler_body (c : Z) : M unit :=
  if c =? char_slash then cpu_interrupt CPU_INTERRUPT_IRQ
  else if c =? char_star then cpu_interrupt CPU_INTERRUPT_NMI
  else if c =? char_minus then cpu_interrupt CPU_INTERRUPT_RESET
  else write_char c.

(** [for(i = ...; i < datalen; i++)] with [todo] iterations left. *)
Fixpoint read_handler_loop (data : list Z) (i : nat) (todo : nat) : M unit :=
  match todo with
  | O => mret tt
  | S todo' =>
      read_handler_body (nth i data 0) ;;
      read_handler_loop data (S i) todo'
  end.

(** Called when keys pressed by the user are delivered to the console. *)
Definition read_handler (data : list Z) (datalen : Z) : M unit :=
  read_handler_loop data 0 (Z.to_nat datalen).

Definition timer_callback : M unit :=
  cpu_interrupt CPU_INTERRUPT_IRQ.

Definition io_read (addr : Z) (size : Z) : M Z :=
  if addr =? KEYB_READ_ADDR then read_char
  else if addr =? TIMER_READ_ADDR then get_timer_value
  else
    fprintf_stderr "Reading IO address %llu.\n" [arg_llu addr] ;;
    mret 0.

Definition io_write (addr : Z) (value : Z) (size : Z) : M unit :=
  if addr =? SCREEN_WRITE_ADDR then
    let c := uint8_t value in
    qemu_chr_fe_write [c] ;;
    if c =? char_lf then qemu_chr_fe_write [char_cr] else mret tt
  else if addr =? CON_ECHO_WRITE_ADDR then
    qemu_chr_fe_set_echo (negb (value =? 0))
  else if addr =? TIMER_WRITE_ADDR then
    set_timer_value value
  else
    fprintf_stderr "Writting %llu in IO address %llu.\n" [arg_llu value; arg_llu addr].

Inductive device_endian := DEVICE_NATIVE_ENDIAN | DEVICE_BIG_ENDIAN | DEVICE_LITTLE_ENDIAN.

Record access_sizes := mkSizes {
  min_access_size : Z;
  max_access_size : Z;
  unaligned : bool;
}.

Record MemoryRegionOps := mkOps {
  ops_read : Z → Z → M Z;
  ops_write : Z → Z → Z → M unit;
  ops_endianness : device_endian;
  ops_valid : access_sizes;
  ops_impl : access_sizes;
}.

Definition io_ops : MemoryRegionOps :=
  {| ops_read := io_read;
     ops_write := io_write;
     ops_endianness := DEVICE_LITTLE_ENDIAN;
     ops_valid := mkSizes 1 4 true;
     ops_impl := mkSizes 1 4 true |}.

Definition mos6502_init (ram_size : Z)
    (boot_device kernel_filename kernel_cmdline initrd_filename cpu_model : option string)
  : M unit :=
  cpu_init ;;
  set_pc 0x1000 ;;   (* Address where to start execution *)
  get_system_memory ;;
  (* RAM *)
  ram1 ← memory_region_init_ram "6502.ram1" (0x0FFF - 0x0000 + 1);
  vmstate_register_ram_global ram1 ;;
  memory_region_add_subregion 0x0000 ram1 ;;
  (* ROM *)
  rom ← memory_region_init_ram "6502.rom" (0x1FFF - 0x1000 + 1);
  rom ← memory_region_set_readonly rom true;
  vmstate_register_ram_global rom ;;
  memory_region_add_subregion 0x1000 rom ;;
  (* More RAM *)
  ram2 ← memory_region_init_ram "6502.ram2" (0xFFEF - 0x2000 + 1);
  vmstate_register_ram_global ram2 ;;
  memory_region_add_subregion 0x2000 ram2 ;;
  (* I/O *)
  io ← memory_region_init_io "6502.io" (0xFEFF - 0xFE00 + 1);
  memory_region_add_subregion 0xFE00 io ;;
  (* Even more RAM *)
  ram3 ← memory_region_init_ram "6502.ram3" (0xFFFF - 0xFF00 + 1);
  vmstate_register_ram_global ram3 ;;
  memory_region_add_subregion 0xFF00 ram3 ;;
  (* Load ROM *)
  bios ← get_bios_name;
  (if bios is None then set_bios_name BIOS_FILENAME else mret tt) ;;
  bios ← get_bios_name;
  let name := default BIOS_FILENAME bios in
  (* 4 KB of BIOS starting at 0x1000 *)
  loaded ← load_image_targphys name 0x1000 (0x1FFF - 0x1000 + 1);
  (if loaded <? 0 then
     fprintf_stderr "Error loading bios file: %s\n" [arg_s name] ;;
     exit (-1)
   else mret tt) ;;
  (* Create console *)
  console_options ← qemu_opts_create "6502.console";
  console_options ← qemu_opt_set console_options "cols" "80";
  console_options ← qemu_opt_set console_options "rows" "25";
  text_console_init console_options ;;
  get_displaystate ;;
  text_consoles_set_display ;;
  console_select 3 ;;
  qemu_chr_add_handlers ;;
  init_keyboard ;;
  init_timer.

(** ** The running machine *)

(** Modelled from the spec: the memory core hands an access to the
    callbacks of a region when its width is one the [valid] sizes of the
    operations accept. *)
Definition access_valid (ops : MemoryRegionOps) (size : Z) : bool :=
  (min_access_size (ops_valid ops) <=? size) && (size <=? max_access_size (ops_valid ops)).

(** Modelled from the spec: a read of the CPU through the address
    dispatcher of the memory core.  RAM and ROM are read a byte at an
    access, as the 8-bit core does; a read that lands in the I/O region
    goes to [io_ops] with the offset in the region; a read that resolves
    to no region is logged and returns 0. *)
Definition cpu_read (addr : Z) (size : Z) : M Z :=
  λ m,
    match dispatch addr m with
    | Some (i, r) =>
        match mr_backing r with
        | ram_block => Returned (load_byte (addr - mr_addr r) r) m
        | io_callbacks =>
            if access_valid io_ops size then ops_read io_ops (addr - mr_addr r) size m
            else (fprintf_stderr "Unassigned mem read %llu\n" [arg_llu addr] ;; mret 0) m
        end
    | None => (fprintf_stderr "Unassigned mem read %llu\n" [arg_llu addr] ;; mret 0) m
    end.

(** Modelled from the spec: a write of the CPU through the address
    dispatcher of the memory core.  A write to a read-only region is
    ignored; RAM is written a byte at an access; a write that lands in the
    I/O region goes to [io_ops] with the offset in the region; a write
    that resolves to no region is logged and dropped. *)
Definition cpu_write (addr : Z) (value : Z) (size : Z) : M unit :=
  λ m,
    match dispatch addr m with
    | Some (i, r) =>
        match mr_backing r with
        | ram_block =>
            if mr_readonly r then Returned tt m
            else Returned tt
                   (with_address_space
                      (alter (store_byte (addr - mr_addr r) (uint8_t value)) i
                         (address_space m)) m)
        | io_callbacks =>
            if access_valid io_ops size then ops_write io_ops (addr - mr_addr r) value size m
            else fprintf_stderr "Unassigned mem write %llu = %llu\n"
                   [arg_llu addr; arg_llu value] m
        end
    | None =>
        fprintf_stderr "Unassigned mem write %llu = %llu\n" [arg_llu addr; arg_llu value] m
    end.

(** Modelled from the spec: what can happen to a machine once it is
    ready.  The CPU reads or writes memory, the console delivers a buffer
    of bytes, the timer ticks; the console and the timer only call back
    once the board has registered its handlers. *)
Inductive machine_event :=
| ev_cpu_read (addr size : Z)
| ev_cpu_write (addr value size : Z)
| ev_console_input (data : list Z)
| ev_timer_tick.

Definition run_event (e : machine_event) : M unit :=
  match e with
  | ev_cpu_read addr size => cpu_read addr size ;; mret tt
  | ev_cpu_write addr value size => cpu_write addr value size
  | ev_console_input data =>
      λ m, if chr_handlers (console m)
           then read_handler data (Z.of_nat (length data)) m
           else Returned tt m
  | ev_timer_tick =>
      λ m, if timer_tick m then timer_callback m else Returned tt m
  end.

Fixpoint run_events (es : list machine_event) : M unit :=
  match es with
  | [] => mret tt
  | e :: es' => run_event e ;; run_events es'
  end.

End Board.

(** * The vocabulary of the properties *)

(** The machine after one more line on stderr. *)
Definition logged (format : string) (args : list fmt_arg) (m : Machine) : Machine :=
  with_stderr (stderr m ++ [(format, args)]) (called (call_fprintf_stderr format args) m).

(** Everything but stderr and the record of calls. *)
Definition devices (m : Machine)
  : CPUState * CharDriverState * option string * gmap string (list Z) *
    list MemoryRegion * list Z * Z * bool :=
  (cpu m, console m, bios_name m, files m, address_space m, keyboard m,
   timer_value m, timer_tick m).

(** [m'] is [m] after one interrupt was asserted on the CPU, and nothing
    else happened. *)
Definition asserts_only (mask : interrupt) (m m' : Machine) : Prop :=
  trace m' = trace m ++ [call_cpu_interrupt mask] ∧
  cpu m' = assert_interrupt mask (cpu m) ∧
  console m' = console m ∧
  keyboard m' = keyboard m ∧
  timer_value m' = timer_value m ∧
  timer_tick m' = timer_tick m ∧
  address_space m' = address_space m ∧
  bios_name m' = bios_name m ∧
  files m' = files m ∧
  stderr m' = stderr m.

(** [m'] is [m] after the byte [c] was made available as an input
    character, and nothing else happened: no interrupt was asserted. *)
Definition buffers_only (c : Z) (m m' : Machine) : Prop :=
  trace m' = trace m ++ [call_write_char c] ∧
  keyboard m' = keyboard m ++ [c] ∧
  cpu m' = cpu m ∧
  console m' = console m ∧
  timer_value m' = timer_value m ∧
  timer_tick m' = timer_tick m ∧
  address_space m' = address_space m ∧
  bios_name m' = bios_name m ∧
  files m' = files m ∧
  stderr m' = stderr m.

(** Unfold the monad and the host operations of the callbacks. *)
Ltac run_board :=
  cbv [mbind M_bind mret M_ret host fprintf_stderr cpu_interrupt write_char
       qemu_chr_fe_write qemu_chr_fe_set_echo set_timer_value get_timer_value].

(** The bytes a write at the screen offset sends to the console. *)
Definition screen_bytes (value : Z) : list Z :=
  if decide (uint8_t value = char_lf) then [char_lf; char_cr] else [uint8_t value].

(** One policy for every defined offset, as the design asks for it: a
    written value is reduced to its [payload], and writes of a valid
    width whose values have the same payload act alike at each defined
    offset. *)
Definition consistent_payload_policy (payload : Z → Z) : Prop :=
  ∀ (addr size v1 v2 : Z) (m : Machine),
    addr = SCREEN_WRITE_ADDR ∨ addr = CON_ECHO_WRITE_ADDR ∨ addr = TIMER_WRITE_ADDR →
    1 ≤ size ≤ 4 →
    0 ≤ v1 < 2 ^ (8 * size) → 0 ≤ v2 < 2 ^ (8 * size) →
    payload v1 = payload v2 →
    io_write addr v1 size m = io_write addr v2 size m.

(** What the init calls fix of a region: all but the bytes it holds. *)
Definition region_layout (r : MemoryRegion) : string * Z * Z * backing * bool :=
  (mr_name r, mr_addr r, mr_size r, mr_backing r, mr_readonly r).

(** The five regions as [mos6502_init] registers them, with the bytes
    [rom_bytes] in the ROM block. *)
Definition board_regions (rom_bytes : gmap Z Z) : list MemoryRegion :=
  [ mkRegion "6502.ram1" 4096 ram_block false 0x0000 ∅;
    mkRegion "6502.rom" 4096 ram_block true 0x1000 rom_bytes;
    mkRegion "6502.ram2" 57328 ram_block false 0x2000 ∅;
    mkRegion "6502.io" 256 io_callbacks false 0xFE00 ∅;
    mkRegion "6502.ram3" 256 ram_block false 0xFF00 ∅ ].

(** The memory map the board file documents in its comment. *)
Definition documented_map : list (Z * Z * backing * bool) :=
  [ (0x0000, 4096, ram_block, false);
    (0x1000, 4096, ram_block, true);
    (0x2000, 56832, ram_block, false);
    (0xFE00, 256, io_callbacks, false);
    (0xFF00, 256, ram_block, false) ].

(** Decide the comparisons of an address with region bounds. *)
Ltac bounds :=
  repeat match goal with
    | |- context [?x <=? ?y] => destruct (Z.leb_spec x y); try lia
    | |- context [?x <? ?y] => destruct (Z.ltb_spec x y); try lia
    end.

(** The file the ROM image is read from: [bios_name], or the default. *)
Definition bios_file (bios : option string) : string :=
  match bios with Some name => name | None => BIOS_FILENAME end.

(** The calls of [mos6502_init], in the order of its statements. *)
Definition cpu_calls : list host_call :=
  [call_cpu_init; call_set_pc 0x1000; call_get_system_memory].

Definition region_calls : list host_call :=
  [ call_memory_region_init_ram "6502.ram1" 4096;
    call_vmstate_register_ram_global "6502.ram1";
    call_memory_region_add_subregion 0x0000 "6502.ram1";
    call_memory_region_init_ram "6502.rom" 4096;
    call_memory_region_set_readonly "6502.rom" true;
    call_vmstate_register_ram_global "6502.rom";
    call_memory_region_add_subregion 0x1000 "6502.rom";
    call_memory_region_init_ram "6502.ram2" 57328;
    call_vmstate_register_ram_global "6502.ram2";
    call_memory_region_add_subregion 0x2000 "6502.ram2";
    call_memory_region_init_io "6502.io" 256;
    call_memory_region_add_subregion 0xFE00 "6502.io";
    call_memory_region_init_ram "6502.ram3" 256;
    call_vmstate_register_ram_global "6502.ram3";
    call_memory_region_add_subregion 0xFF00 "6502.ram3" ].

Definition load_calls (name : string) : list host_call :=
  [ call_load_image_targphys name 0x1000 4096 ].

Definition console_calls : list host_call :=
  [ call_qemu_opts_create "6502.console";
    call_qemu_opt_set "cols" "80";
    call_qemu_opt_set "rows" "25";
    call_text_console_init;
    call_get_displaystate;
    call_text_consoles_set_display;
    call_console_select 3;
    call_qemu_chr_add_handlers ].

Definition device_calls : list host_call := [call_init_keyboard; call_init_timer].

Definition failure_calls (name : string) : list host_call :=
  [ call_fprintf_stderr "Error loading bios file: %s\n" [arg_s name]; call_exit (-1) ].

(** The machine [mos6502_init] leaves when the image was loaded. *)
Definition ready_machine (name : string) (fs : gmap string (list Z)) (rom_bytes : gmap Z Z)
  : Machine :=
  {| cpu := mkCPU 0x1000 false false false;
     console := mkChr [("cols", "80"); ("rows", "25")] [] false true;
     bios_name := Some name;
     files := fs;
     address_space := board_regions rom_bytes;
     keyboard := [];
     timer_value := 0;
     timer_tick := true;
     stderr := [];
     trace := cpu_calls ++ region_calls ++ load_calls name ++ console_calls ++ device_calls |}.

(** The machine the process exits with when the image was not loaded. *)
Definition failed_machine (name : string) (fs : gmap string (list Z)) : Machine :=
  {| cpu := mkCPU 0x1000 false false false;
     console := mkChr [] [] false false;
     bios_name := Some name;
     files := fs;
     address_space := board_regions ∅;
     keyboard := [];
     timer_value := 0;
     timer_tick := false;
     stderr := [("Error loading bios file: %s\n", [arg_s name])];
     trace := cpu_calls ++ region_calls ++ load_calls name ++ failure_calls name |}.

(** Unfold [mos6502_init] and the host operations it calls. *)
Ltac run_init :=
  cbv [mos6502_init mbind M_bind mret M_ret host exit cpu_init set_pc
       get_system_memory get_displaystate get_bios_name set_bios_name
       memory_region_init_ram memory_region_init_io memory_region_set_readonly
       vmstate_register_ram_global memory_region_add_subregion load_image_targphys
       fprintf_stderr qemu_opts_create qemu_opt_set text_console_init
       text_consoles_set_display console_select qemu_chr_add_handlers
       init_keyboard init_timer uninitialized called
       with_cpu with_console with_bios_name with_address_space with_keyboard
       with_timer with_stderr
       cpu console bios_name files address_space keyboard timer_value timer_tick
       stderr trace mr_name mr_size mr_backing mr_readonly mr_addr mr_ram
       pc irq_pending nmi_pending reset_pending chr_opts chr_out chr_echo chr_handlers
       id app bios_file default from_option].

(** Whether the ROM image can be read and fits the 4096 bytes. *)
Definition image_fits (bios : option string) (fs : gmap string (list Z)) : bool :=
  match fs !! bios_file bios with
  | Some image => Z.of_nat (length image) <=? 4096
  | None => false
  end.

(** The call [c1] is made before the call [c2]. *)
Definition call_index (c : host_call) (tr : list host_call) : option nat :=
  fst <$> list_find (λ x, x = c) tr.

Definition precedes (c1 c2 : host_call) (tr : list host_call) : Prop :=
  ∃ i j, call_index c1 tr = Some i ∧ call_index c2 tr = Some j ∧ (i < j)%nat.

(** The order of the bootstrap as the design document gives it: the
    regions, then the ROM image, then the program counter, then the
    console and the devices. *)
Definition claimed_bootstrap_order (name : string) (tr : list host_call) : Prop :=
  precedes (call_memory_region_add_subregion 0xFF00 "6502.ram3")
           (call_load_image_targphys name 0x1000 4096) tr ∧
  precedes (call_load_image_targphys name 0x1000 4096) (call_set_pc 0x1000) tr ∧
  precedes (call_set_pc 0x1000) (call_qemu_opts_create "6502.console") tr.

(** From one address space to a later one, the layout of every region is
    kept and every read-only region is kept whole. *)
Definition rom_frame (l l' : list MemoryRegion) : Prop :=
  region_layout <$> l' = region_layout <$> l ∧
  ∀ i r, l !! i = Some r → mr_readonly r = true → l' !! i = Some r.

(** A console byte that triggers no interrupt. *)
Definition ordinary (c : Z) : Prop :=
  c ≠ char_slash ∧ c ≠ char_star ∧ c ≠ char_minus.

#[global] Instance ordinary_dec (c : Z) : Decision (ordinary c).
Proof. unfold ordinary. apply _. Defined.

(** A program writes the values, one after the other, at the screen
    offset of the I/O callbacks. *)
Fixpoint screen_write_all (values : list Z) (size : Z) : M unit :=
  match values with
  | [] => mret tt
  | value :: values' =>
      io_write SCREEN_WRITE_ADDR value size ;;
      screen_write_all values' size
  end.

(** The status the process exited with, if it did. *)
Definition exit_status {A} (o : outcome A) : option Z :=
  match o with Returned _ _ => None | Exited status _ => Some status end.

(** The machine but for the files of the host. *)
Definition machine_but_files (m : Machine)
  : CPUState * CharDriverState * option string * list MemoryRegion * list Z * Z * bool *
    list (string * list fmt_arg) * list host_call :=
  (cpu m, console m, bios_name m, address_space m, keyboard m, timer_value m,
   timer_tick m, stderr m, trace m).

(** What the bootstrap sets once: the program counter and the two
    registrations, of the read handlers and of the timer callback. *)
Definition wiring (m : Machine) : Z * bool * bool :=
  (pc (cpu m), chr_handlers (console m), timer_tick m).

(** * Properties *)

Lemma fprintf_stderr_logged format args m :
  fprintf_stderr format args m = Returned tt (logged format args m).
Proof. reflexivity. Qed.

Lemma logged_devices format args m : devices (logged format args m) = devices m.
Proof. reflexivity. Qed.

Lemma assert_interrupt_flags mask c :
  pc (assert_interrupt mask c) = pc c ∧
  irq_pending (assert_interrupt mask c)
    = (if decide (mask = CPU_INTERRUPT_IRQ) then true else irq_pending c) ∧
  nmi_pending (assert_interrupt mask c)
    = (if decide (mask = CPU_INTERRUPT_NMI) then true else nmi_pending c) ∧
  reset_pending (assert_interrupt mask c)
    = (if decide (mask = CPU_INTERRUPT_RESET) then true else reset_pending c).
Proof. destruct mask; repeat split. Qed.

Lemma cpu_interrupt_asserts_only mask m :
  ∃ m', cpu_interrupt mask m = Returned tt m' ∧ asserts_only mask m m'.
Proof. eexists; split; [reflexivity | repeat split]. Qed.

Lemma write_char_buffers_only c m :
  ∃ m', write_char c m = Returned tt m' ∧ buffers_only c m m'.
Proof. eexists; split; [reflexivity | repeat split]. Qed.

(** ** The console read handler *)

Lemma read_handler_body_cases c :
  read_handler_body c =
    if decide (c = char_slash) then cpu_interrupt CPU_INTERRUPT_IRQ
    else if decide (c = char_star) then cpu_interrupt CPU_INTERRUPT_NMI
    else if decide (c = char_minus) then cpu_interrupt CPU_INTERRUPT_RESET
    else write_char c.
Proof.
  unfold read_handler_body.
  repeat case_decide; subst; try reflexivity.
  destruct (Z.eqb_spec c char_slash); [contradiction|].
  destruct (Z.eqb_spec c char_star); [contradiction|].
  destruct (Z.eqb_spec c char_minus); [contradiction|].
  reflexivity.
Qed.

Lemma bind_ret_r (f : M unit) m : (f ;; mret tt) m = f m.
Proof.
  cbv [mbind M_bind mret M_ret]. destruct (f m) as [[] ?|]; reflexivity.
Qed.

Lemma bind_assoc {A B C} (f : M A) (g : A → M B) (h : B → M C) m :
  ((f ≫= g) ≫= h) m = (f ≫= (λ a, g a ≫= h)) m.
Proof. cbv [mbind M_bind]. destruct (f m); reflexivity. Qed.

Lemma read_handler_single c m : read_handler [c] 1 m = read_handler_body c m.
Proof. change (read_handler [c] 1) with (read_handler_body c ;; mret tt). apply bind_ret_r. Qed.

(** The loop started at index [i] only sees the bytes from [i] on. *)
Lemma read_handler_loop_shift c data i todo m :
  read_handler_loop (c :: data) (S i) todo m = read_handler_loop data i todo m.
Proof.
  revert i m. induction todo as [|todo IH]; intros i m; [reflexivity|].
  cbn [read_handler_loop nth]. cbv [mbind M_bind].
  destruct (read_handler_body (nth i data 0) m); [apply IH | reflexivity].
Qed.

Lemma read_handler_cons c data m :
  read_handler (c :: data) (Z.of_nat (length (c :: data))) m =
  (read_handler_body c ;; read_handler data (Z.of_nat (length data))) m.
Proof.
  unfold read_handler. rewrite !Nat2Z.id. cbn [length read_handler_loop nth].
  cbv [mbind M_bind].
  destruct (read_handler_body c m); [apply read_handler_loop_shift | reflexivity].
Qed.

Lemma read_handler_app d1 d2 m :
  read_handler (d1 ++ d2) (Z.of_nat (length (d1 ++ d2))) m =
  (read_handler d1 (Z.of_nat (length d1)) ;; read_handler d2 (Z.of_nat (length d2))) m.
Proof.
  revert m. induction d1 as [|c d1 IH]; intros m.
  - reflexivity.
  - change ((c :: d1) ++ d2) with (c :: (d1 ++ d2)).
    rewrite read_handler_cons.
    cbv [mbind M_bind]. rewrite read_handler_cons. cbv [mbind M_bind].
    destruct (read_handler_body c m) as [[] m1|]; [|reflexivity].
    rewrite IH. reflexivity.
Qed.

(** C2: for every console byte the read handler does exactly one thing:
    ['/'] asserts only IRQ, ['*'] only NMI, ['-'] only RESET, and every
    other byte asserts nothing and becomes available as an input
    character; the bytes of a delivered buffer are handled in order, each
    on its own. *)
Theorem read_handler_routes_each_byte :
  (∀ (c : Z) (m : Machine),
     ∃ m', read_handler [c] 1 m = Returned tt m' ∧
       (c = char_slash → asserts_only CPU_INTERRUPT_IRQ m m') ∧
       (c = char_star → asserts_only CPU_INTERRUPT_NMI m m') ∧
       (c = char_minus → asserts_only CPU_INTERRUPT_RESET m m') ∧
       (c ≠ char_slash → c ≠ char_star → c ≠ char_minus → buffers_only c m m')) ∧
  (∀ (c : Z) (data : list Z) (m : Machine),
     read_handler (c :: data) (Z.of_nat (length (c :: data))) m =
     (read_handler [c] 1 ;; read_handler data (Z.of_nat (length data))) m) ∧
  (∀ (d1 d2 : list Z) (m : Machine),
     read_handler (d1 ++ d2) (Z.of_nat (length (d1 ++ d2))) m =
     (read_handler d1 (Z.of_nat (length d1)) ;;
      read_handler d2 (Z.of_nat (length d2))) m).
Proof.
  split; [|split; [|exact read_handler_app]].
  - intros c m. rewrite read_handler_single, read_handler_body_cases.
    repeat case_decide; subst.
    + destruct (cpu_interrupt_asserts_only CPU_INTERRUPT_IRQ m) as (m' & -> & Hm).
      exists m'. repeat split; try apply Hm; try discriminate; contradiction.
    + destruct (cpu_interrupt_asserts_only CPU_INTERRUPT_NMI m) as (m' & -> & Hm).
      exists m'. repeat split; try apply Hm; try discriminate; contradiction.
    + destruct (cpu_interrupt_asserts_only CPU_INTERRUPT_RESET m) as (m' & -> & Hm).
      exists m'. repeat split; try apply Hm; try discriminate; contradiction.
    + destruct (write_char_buffers_only c m) as (m' & -> & Hm).
      exists m'. split; [reflexivity|]. repeat split; try contradiction; intros; apply Hm.
  - intros c data m. rewrite read_handler_cons.
    cbv [mbind M_bind]. rewrite read_handler_single. reflexivity.
Qed.

Lemma read_handler_routes_each_byte_witness :
  ∃ m', read_handler [char_slash] 1 (uninitialized None ∅) = Returned tt m' ∧
        asserts_only CPU_INTERRUPT_IRQ (uninitialized None ∅) m'.
Proof.
  destruct (proj1 read_handler_routes_each_byte char_slash (uninitialized None ∅))
    as (m' & E & Hirq & _).
  exists m'. split; [exact E | apply Hirq; reflexivity].
Defined.

(** The end-to-end scenario of the design: the bytes ["A/B"] buffer 'A',
    assert IRQ once, buffer 'B', and assert neither NMI nor RESET. *)
Example read_handler_A_slash_B :
  let m' := machine_of (read_handler [65; 47; 66] 3 (uninitialized None ∅)) in
  trace m' = [call_write_char 65; call_cpu_interrupt CPU_INTERRUPT_IRQ; call_write_char 66] ∧
  keyboard m' = [65; 66] ∧
  cpu m' = mkCPU 0 true false false.
Proof. repeat split. Qed.

(** ** The timer callback *)

(** C5: every timer tick asserts IRQ on the CPU, whatever the timer
    counter holds, and asserts neither NMI nor RESET. *)
Theorem timer_callback_asserts_irq (m : Machine) :
  ∃ m', timer_callback m = Returned tt m' ∧
    asserts_only CPU_INTERRUPT_IRQ m m' ∧
    irq_pending (cpu m') = true ∧
    nmi_pending (cpu m') = nmi_pending (cpu m) ∧
    reset_pending (cpu m') = reset_pending (cpu m).
Proof.
  destruct (cpu_interrupt_asserts_only CPU_INTERRUPT_IRQ m) as (m' & E & Hm).
  exists m'. split; [exact E|]. split; [exact Hm|].
  destruct Hm as (_ & -> & _). repeat split.
Qed.

(** ** The I/O callbacks *)

(** C3: a write at I/O offset 0x00 whose low byte is the line feed sends
    the console exactly two bytes, the line feed and then the carriage
    return, one call each and in that order; any other byte is sent alone,
    in one call; nothing else of the machine changes. *)
Theorem io_write_screen (value size : Z) (m : Machine) :
  ∃ m', io_write SCREEN_WRITE_ADDR value size m = Returned tt m' ∧
    chr_out (console m') = chr_out (console m) ++ screen_bytes value ∧
    trace m' = trace m ++ map (λ b, call_qemu_chr_fe_write [b]) (screen_bytes value) ∧
    chr_echo (console m') = chr_echo (console m) ∧
    chr_handlers (console m') = chr_handlers (console m) ∧
    chr_opts (console m') = chr_opts (console m) ∧
    cpu m' = cpu m ∧ keyboard m' = keyboard m ∧
    timer_value m' = timer_value m ∧ timer_tick m' = timer_tick m ∧
    address_space m' = address_space m ∧ stderr m' = stderr m.
Proof.
  unfold io_write, screen_bytes. cbn [SCREEN_WRITE_ADDR Z.eqb].
  destruct (Z.eqb_spec (uint8_t value) char_lf) as [E|E].
  - rewrite decide_True by exact E. rewrite E.
    eexists; split; [reflexivity|]. cbn. rewrite <- !app_assoc. repeat split.
  - rewrite decide_False by exact E.
    eexists; split; [reflexivity|]. repeat split.
Qed.

Example io_write_screen_line_feed :
  chr_out (console (machine_of (io_write 0 0x10A 2 (uninitialized None ∅)))) = [10; 13].
Proof. reflexivity. Qed.

(** C4: at every I/O offset that is not a defined one, a read writes one
    diagnostic line and returns 0, a write writes one diagnostic line and
    drops the value; both return to the caller with the devices as they
    were. *)
Theorem io_unmatched_offset (keyb_not_ready addr value size : Z) (m : Machine) :
  (addr ≠ KEYB_READ_ADDR → addr ≠ TIMER_READ_ADDR →
     io_read keyb_not_ready addr size m
       = Returned 0 (logged "Reading IO address %llu.\n" [arg_llu addr] m)) ∧
  (addr ≠ SCREEN_WRITE_ADDR → addr ≠ CON_ECHO_WRITE_ADDR → addr ≠ TIMER_WRITE_ADDR →
     io_write addr value size m
       = Returned tt (logged "Writting %llu in IO address %llu.\n"
                        [arg_llu value; arg_llu addr] m)) ∧
  (∀ format args, devices (logged format args m) = devices m).
Proof.
  split; [|split].
  - intros H0 H2. unfold io_read.
    destruct (Z.eqb_spec addr KEYB_READ_ADDR); [contradiction|].
    destruct (Z.eqb_spec addr TIMER_READ_ADDR); [contradiction|].
    reflexivity.
  - intros H0 H1 H2. unfold io_write.
    destruct (Z.eqb_spec addr SCREEN_WRITE_ADDR); [contradiction|].
    destruct (Z.eqb_spec addr CON_ECHO_WRITE_ADDR); [contradiction|].
    destruct (Z.eqb_spec addr TIMER_WRITE_ADDR); [contradiction|].
    reflexivity.
  - intros; apply logged_devices.
Qed.

Lemma io_unmatched_offset_witness :
  io_read 0 0x03 1 (uninitialized None ∅)
    = Returned 0 (logged "Reading IO address %llu.\n" [arg_llu 0x03] (uninitialized None ∅)) ∧
  io_write 0x03 0x41 1 (uninitialized None ∅)
    = Returned tt (logged "Writting %llu in IO address %llu.\n"
                     [arg_llu 0x41; arg_llu 0x03] (uninitialized None ∅)).
Proof.
  destruct (io_unmatched_offset 0 0x03 0x41 1 (uninitialized None ∅)) as (Hr & Hw & _).
  split; [apply Hr | apply Hw]; discriminate.
Defined.

(** C10: a read at I/O offset 0x01, the echo control offset, goes the way
    of the unmatched offsets: one diagnostic line, the result 0, and the
    echo setting and every other device as before. *)
Theorem io_read_echo_offset (keyb_not_ready size : Z) (m : Machine) :
  ∃ m', io_read keyb_not_ready CON_ECHO_WRITE_ADDR size m = Returned 0 m' ∧
    m' = logged "Reading IO address %llu.\n" [arg_llu CON_ECHO_WRITE_ADDR] m ∧
    stderr m' = stderr m ++ [("Reading IO address %llu.\n", [arg_llu 1])] ∧
    trace m' = trace m ++ [call_fprintf_stderr "Reading IO address %llu.\n" [arg_llu 1]] ∧
    chr_echo (console m') = chr_echo (console m) ∧
    devices m' = devices m.
Proof. eexists; split; [reflexivity|]. repeat split. Qed.

(** The truncation of the screen offset is not the policy of the echo
    offset: 0x100 and 0x000 have the same low byte, yet the first turns
    the echo on and the second turns it off. *)
Lemma io_write_echo_ignores_truncation : ¬ consistent_payload_policy uint8_t.
Proof.
  intros H.
  specialize (H CON_ECHO_WRITE_ADDR 2 0x100 0x000 (uninitialized None ∅)).
  assert (E : io_write CON_ECHO_WRITE_ADDR 0x100 2 (uninitialized None ∅) =
              io_write CON_ECHO_WRITE_ADDR 0x000 2 (uninitialized None ∅)).
  { apply H; [right; left; reflexivity | lia | lia | lia | reflexivity]. }
  apply (f_equal (λ o, chr_echo (console (machine_of o)))) in E.
  discriminate E.
Qed.

Lemma io_write_screen_out value size m :
  chr_out (console (machine_of (io_write SCREEN_WRITE_ADDR value size m)))
    = chr_out (console m) ++ screen_bytes value.
Proof.
  unfold io_write, screen_bytes. cbn [SCREEN_WRITE_ADDR Z.eqb].
  destruct (Z.eqb_spec (uint8_t value) char_lf) as [E|E].
  - rewrite decide_True by exact E. rewrite E. run_board. cbn.
    rewrite <- app_assoc. reflexivity.
  - rewrite decide_False by exact E. reflexivity.
Qed.

Lemma screen_bytes_head value : head (screen_bytes value) = Some (uint8_t value).
Proof. unfold screen_bytes. case_decide as E; [rewrite E|]; reflexivity. Qed.

(** No reduction of the value to one byte is followed at both the screen
    and the echo offset: the 257 values 0 .. 256 all act differently at
    one of the two. *)
Lemma io_write_no_single_byte_policy :
  ¬ ∃ payload : Z → Z, (∀ v, 0 ≤ payload v < 256) ∧ consistent_payload_policy payload.
Proof.
  intros (payload & Hrange & H).
  set (m0 := uninitialized None ∅).
  assert (Hinj : ∀ v1 v2, v1 ∈ seqZ 0 257 → v2 ∈ seqZ 0 257 →
                   payload v1 = payload v2 → v1 = v2).
  { intros v1 v2 H1%elem_of_seqZ H2%elem_of_seqZ E.
    assert (E0 := H SCREEN_WRITE_ADDR 2 v1 v2 m0 (or_introl eq_refl)
                    ltac:(lia) ltac:(lia) ltac:(lia) E).
    assert (E1 := H CON_ECHO_WRITE_ADDR 2 v1 v2 m0 (or_intror (or_introl eq_refl))
                    ltac:(lia) ltac:(lia) ltac:(lia) E).
    apply (f_equal (λ o, head (chr_out (console (machine_of o))))) in E0.
    rewrite !io_write_screen_out in E0. cbn [m0 uninitialized console chr_out app] in E0.
    rewrite !screen_bytes_head in E0. injection E0 as E0. unfold uint8_t in E0.
    apply (f_equal (λ o, chr_echo (console (machine_of o)))) in E1.
    cbn in E1.
    destruct (Z.eqb_spec v1 0), (Z.eqb_spec v2 0); try discriminate E1; [lia|].
    assert (v1 = 256 ∨ v1 < 256) as [->|?] by lia;
      assert (v2 = 256 ∨ v2 < 256) as [->|?] by lia; try reflexivity.
    - rewrite (Z.mod_small v2) in E0 by lia. change (256 mod 2 ^ 8) with 0 in E0. lia.
    - rewrite (Z.mod_small v1) in E0 by lia. change (256 mod 2 ^ 8) with 0 in E0. lia.
    - rewrite !Z.mod_small in E0 by lia. exact E0. }
  assert (Hnd : NoDup (payload <$> seqZ 0 257)).
  { apply NoDup_fmap_2_strong; [exact Hinj | apply NoDup_seqZ]. }
  assert (Hsub : payload <$> seqZ 0 257 ⊆+ seqZ 0 256).
  { apply NoDup_submseteq; [exact Hnd|].
    intros x (v & -> & _)%list_elem_of_fmap. apply elem_of_seqZ. specialize (Hrange v). lia. }
  apply submseteq_length in Hsub.
  rewrite length_fmap, !length_seqZ in Hsub. lia.
Qed.

(** C8, as the board has it: the access width is ignored at every offset;
    at 0x00 the value is cut to its low byte, so values with the same low
    byte act alike; at 0x01 only whether the whole value is zero counts;
    at 0x02 the whole value goes to the timer. *)
Theorem io_write_payload (m : Machine) :
  (∀ addr value size size', io_write addr value size m = io_write addr value size' m) ∧
  (∀ v1 v2 size, uint8_t v1 = uint8_t v2 →
     io_write SCREEN_WRITE_ADDR v1 size m = io_write SCREEN_WRITE_ADDR v2 size m) ∧
  (∀ v1 v2 size, (v1 = 0 ↔ v2 = 0) →
     io_write CON_ECHO_WRITE_ADDR v1 size m = io_write CON_ECHO_WRITE_ADDR v2 size m) ∧
  (∀ value size,
     ∃ m', io_write CON_ECHO_WRITE_ADDR value size m = Returned tt m' ∧
           chr_echo (console m') = bool_decide (value ≠ 0)) ∧
  (∀ value size,
     ∃ m', io_write TIMER_WRITE_ADDR value size m = Returned tt m' ∧
           timer_value m' = value ∧
           trace m' = trace m ++ [call_set_timer_value value]).
Proof.
  repeat split.
  - intros v1 v2 size E. unfold io_write. cbn [SCREEN_WRITE_ADDR Z.eqb]. rewrite E. reflexivity.
  - intros v1 v2 size E. unfold io_write. cbn [CON_ECHO_WRITE_ADDR SCREEN_WRITE_ADDR Z.eqb].
    destruct (Z.eqb_spec v1 0), (Z.eqb_spec v2 0); try reflexivity; tauto.
  - intros value size. eexists; split; [reflexivity|]. cbn.
    destruct (Z.eqb_spec value 0); [rewrite bool_decide_false | rewrite bool_decide_true]; tauto.
  - intros value size. eexists; split; [reflexivity|]. split; reflexivity.
Qed.

Lemma io_write_payload_witness :
  io_write SCREEN_WRITE_ADDR 0x141 2 (uninitialized None ∅)
    = io_write SCREEN_WRITE_ADDR 0x41 1 (uninitialized None ∅) ∧
  io_write CON_ECHO_WRITE_ADDR 0x100 2 (uninitialized None ∅)
    = io_write CON_ECHO_WRITE_ADDR 0x01 1 (uninitialized None ∅).
Proof.
  destruct (io_write_payload (uninitialized None ∅)) as (Hsize & Hscreen & Hecho & _).
  split.
  - rewrite (Hsize _ _ 2 1). apply Hscreen. reflexivity.
  - rewrite (Hsize _ _ 2 1). apply Hecho. split; discriminate.
Defined.

(** ** The memory map *)

Lemma regions_at_lookup a l : ∀ i j r,
  (j, r) ∈ regions_at a i l →
  (i ≤ j)%nat ∧ l !! (j - i)%nat = Some r ∧ region_contains r a = true.
Proof.
  induction l as [|r0 l IH]; intros i j r Hin; cbn [regions_at] in Hin.
  - inversion Hin.
  - destruct (region_contains r0 a) eqn:Hc.
    + apply elem_of_cons in Hin as [E|Hin].
      * injection E as -> ->. rewrite Nat.sub_diag. repeat split; [lia | exact Hc].
      * apply IH in Hin as (Hle & Hl & Hr). split; [lia|]. split; [|exact Hr].
        replace (j - i)%nat with (S (j - S i)) by lia. exact Hl.
    + apply IH in Hin as (Hle & Hl & Hr). split; [lia|]. split; [|exact Hr].
      replace (j - i)%nat with (S (j - S i)) by lia. exact Hl.
Qed.

Lemma dispatch_lookup a m i r :
  dispatch a m = Some (i, r) →
  address_space m !! i = Some r ∧ region_contains r a = true.
Proof.
  unfold dispatch. intros H.
  destruct (regions_at a 0 (address_space m)) as [|ir [|? ?]] eqn:E; try discriminate.
  injection H as ->.
  destruct (regions_at_lookup a (address_space m) 0 i r) as (_ & Hl & Hc).
  { rewrite E. apply list_elem_of_here. }
  rewrite Nat.sub_0_r in Hl. split; assumption.
Qed.

(** The positions of the regions at an address depend on the layout only. *)
Lemma regions_at_layout a l l' : ∀ i,
  region_layout <$> l = region_layout <$> l' →
  fst <$> regions_at a i l = fst <$> regions_at a i l'.
Proof.
  revert l'. induction l as [|r l IH]; intros [|r' l'] i E; try discriminate; [reflexivity|].
  pose proof (f_equal head E) as Er. pose proof (f_equal tail E) as El.
  cbn [head tail fmap list_fmap] in Er, El. cbn [regions_at].
  assert (Hc : region_contains r a = region_contains r' a).
  { unfold region_contains. unfold region_layout in Er. congruence. }
  rewrite Hc. destruct (region_contains r' a); cbn [fmap list_fmap]; rewrite (IH l' (S i) El);
    reflexivity.
Qed.

(** In the map as registered, an address of the ROM range is in the ROM
    region and in no other. *)
Lemma regions_at_rom a d :
  0x1000 ≤ a ≤ 0x1FFF →
  regions_at a 0 (board_regions d)
    = [(1%nat, mkRegion "6502.rom" 4096 ram_block true 0x1000 d)].
Proof.
  intros Ha. cbn [regions_at board_regions]. unfold region_contains.
  cbn [mr_addr mr_size]. bounds. reflexivity.
Qed.

Lemma dispatch_rom a d m :
  address_space m = board_regions d →
  0x1000 ≤ a ≤ 0x1FFF →
  dispatch a m = Some (1%nat, mkRegion "6502.rom" 4096 ram_block true 0x1000 d).
Proof. intros E Ha. unfold dispatch. rewrite E, regions_at_rom by exact Ha. reflexivity. Qed.

(** ** Loading the ROM image *)

Lemma rom_poke_rom a b d m :
  address_space m = board_regions d →
  0x1000 ≤ a ≤ 0x1FFF →
  rom_poke a b m = with_address_space (board_regions (<[a - 0x1000 := b]> d)) m.
Proof.
  intros E Ha. unfold rom_poke. rewrite (dispatch_rom a d m E Ha).
  cbn [mr_backing mr_addr]. rewrite E. reflexivity.
Qed.

Lemma rom_blit_rom image : ∀ a d m,
  address_space m = board_regions d →
  0x1000 ≤ a → a + Z.of_nat (length image) ≤ 0x2000 →
  ∃ d', rom_blit a image m = with_address_space (board_regions d') m ∧
        ∀ j : Z, d' !! j =
          if decide (a - 0x1000 ≤ j < a - 0x1000 + Z.of_nat (length image))
          then image !! Z.to_nat (j - (a - 0x1000))
          else d !! j.
Proof.
  induction image as [|b image IH]; intros a d m E Ha Hlen.
  - exists d. split.
    + cbn [rom_blit]. destruct m; cbn in E; subst; reflexivity.
    + intros j. cbn [length]. rewrite decide_False by lia. reflexivity.
  - cbn [length] in Hlen. cbn [rom_blit].
    rewrite (rom_poke_rom a b d m E) by lia.
    destruct (IH (a + 1) (<[a - 0x1000 := b]> d)
                (with_address_space (board_regions (<[a - 0x1000 := b]> d)) m))
      as (d' & Hblit & Hd'); [reflexivity | lia | lia |].
    exists d'. split; [rewrite Hblit; reflexivity|].
    intros j. rewrite Hd'. cbn [length].
    destruct (decide (j = a - 0x1000)) as [->|Hne].
    + rewrite decide_False by lia. rewrite decide_True by lia.
      rewrite lookup_insert_eq. rewrite Z.sub_diag. reflexivity.
    + rewrite lookup_insert_ne by congruence.
      destruct (decide (a - 0x1000 ≤ j < a - 0x1000 + Z.of_nat (S (length image))))
        as [Hin|Hout].
      * rewrite decide_True by lia.
        replace (Z.to_nat (j - (a - 0x1000)))
          with (S (Z.to_nat (j - (a + 1 - 0x1000)))) by lia.
        reflexivity.
      * rewrite decide_False by lia. reflexivity.
Qed.

(** ** The bootstrap *)

Lemma mos6502_init_loads bios fs image ram_size bd kf kc ifn cm :
  fs !! bios_file bios = Some image →
  Z.of_nat (length image) ≤ 4096 →
  ∃ d, mos6502_init ram_size bd kf kc ifn cm (uninitialized bios fs)
         = Returned tt (ready_machine (bios_file bios) fs d) ∧
       ∀ j : Z, d !! j = if decide (0 ≤ j < Z.of_nat (length image))
                         then image !! Z.to_nat j else None.
Proof.
  intros Hf Hlen.
  destruct bios as [name|]; cbn [bios_file] in *; run_init; rewrite Hf;
    change (8191 - 4096 + 1) with 4096;
    (destruct (Z.ltb_spec 4096 (Z.of_nat (length image))); [lia|]);
    match goal with
    | |- context [rom_blit 4096 image ?m] =>
        destruct (rom_blit_rom image 4096 ∅ m) as (d & -> & Hd);
          [reflexivity | lia | lia |]
    end;
    (destruct (Z.ltb_spec (Z.of_nat (length image)) 0); [lia|]);
    exists d; (split; [reflexivity|]);
    intros j; specialize (Hd j); change (4096 - 4096) with 0 in Hd;
    rewrite Z.add_0_l, Z.sub_0_r, lookup_empty in Hd; exact Hd.
Qed.

Lemma mos6502_init_fails bios fs ram_size bd kf kc ifn cm :
  match fs !! bios_file bios with
  | Some image => 4096 < Z.of_nat (length image)
  | None => True
  end →
  mos6502_init ram_size bd kf kc ifn cm (uninitialized bios fs)
    = Exited (-1) (failed_machine (bios_file bios) fs).
Proof.
  intros Hf.
  destruct bios as [name|]; cbn [bios_file] in *; run_init;
    (destruct (fs !! _) as [image|]; [|reflexivity]);
    change (8191 - 4096 + 1) with 4096;
    (destruct (Z.ltb_spec 4096 (Z.of_nat (length image))); [|lia]);
    reflexivity.
Qed.

Lemma mos6502_init_machine bios fs ram_size bd kf kc ifn cm :
  ∃ d, machine_of (mos6502_init ram_size bd kf kc ifn cm (uninitialized bios fs))
       = if image_fits bios fs then ready_machine (bios_file bios) fs d
         else failed_machine (bios_file bios) fs.
Proof.
  unfold image_fits.
  destruct (fs !! bios_file bios) as [image|] eqn:Hf.
  - destruct (Z.leb_spec (Z.of_nat (length image)) 4096) as [Hlen|Hlen].
    + destruct (mos6502_init_loads bios fs image ram_size bd kf kc ifn cm Hf Hlen)
        as (d & -> & _).
      exists d. reflexivity.
    + exists ∅. rewrite mos6502_init_fails; [reflexivity|]. rewrite Hf. exact Hlen.
  - exists ∅. rewrite mos6502_init_fails; [reflexivity|]. rewrite Hf. exact I.
Qed.

Lemma mos6502_init_address_space bios fs ram_size bd kf kc ifn cm :
  ∃ d, address_space (machine_of (mos6502_init ram_size bd kf kc ifn cm (uninitialized bios fs)))
       = board_regions d.
Proof.
  destruct (mos6502_init_machine bios fs ram_size bd kf kc ifn cm) as (d & ->).
  destruct (image_fits bios fs); [exists d | exists ∅]; reflexivity.
Qed.

(** C1, what the code does: whatever the host, [mos6502_init] registers
    five regions, and the third, 6502.ram2, is 57328 bytes long and ends at
    0xFFEF, not at 0xFDFF as the memory map in the comment above it says;
    so the address 0xFE00 is in two regions, 6502.ram2 and 6502.io, and
    0xFF00 is in 6502.ram2 and 6502.ram3, and neither resolves to a
    unique region. *)
Theorem mos6502_init_regions_overlap
    (bios : option string) (fs : gmap string (list Z))
    (ram_size : Z) (bd kf kc ifn cm : option string) :
  let m := machine_of (mos6502_init ram_size bd kf kc ifn cm (uninitialized bios fs)) in
  (λ r, (mr_addr r, mr_size r, mr_backing r, mr_readonly r)) <$> address_space m
    = [ (0x0000, 4096, ram_block, false);
        (0x1000, 4096, ram_block, true);
        (0x2000, 57328, ram_block, false);
        (0xFE00, 256, io_callbacks, false);
        (0xFF00, 256, ram_block, false) ] ∧
  (λ r, (mr_addr r, mr_size r, mr_backing r, mr_readonly r)) <$> address_space m
    ≠ documented_map ∧
  (λ ir, mr_name ir.2) <$> regions_at 0xFE00 0 (address_space m) = ["6502.ram2"; "6502.io"] ∧
  (λ ir, mr_name ir.2) <$> regions_at 0xFF00 0 (address_space m) = ["6502.ram2"; "6502.ram3"] ∧
  dispatch 0xFE00 m = None ∧
  dispatch 0xFF00 m = None.
Proof.
  intros m. subst m.
  destruct (mos6502_init_address_space bios fs ram_size bd kf kc ifn cm) as (d & E).
  unfold dispatch. rewrite E.
  split; [reflexivity|]. split; [discriminate|]. repeat split.
Qed.

(** With a one-byte image in the default file, the program counter is set
    by the second call of the bootstrap, before any region exists and
    before the image is loaded. *)
Lemma mos6502_init_sets_pc_first :
  let m := machine_of (mos6502_init 0 None None None None None
                         (uninitialized None {[ BIOS_FILENAME := [0xEA] ]})) in
  call_index (call_set_pc 0x1000) (trace m) = Some 1%nat ∧
  call_index (call_memory_region_init_ram "6502.ram1" 4096) (trace m) = Some 3%nat ∧
  call_index (call_load_image_targphys BIOS_FILENAME 0x1000 4096) (trace m) = Some 18%nat ∧
  ¬ claimed_bootstrap_order BIOS_FILENAME (trace m).
Proof.
  intros m.
  assert (Hpc : call_index (call_set_pc 0x1000) (trace m) = Some 1%nat) by (vm_compute; reflexivity).
  assert (Hld : call_index (call_load_image_targphys BIOS_FILENAME 0x1000 4096) (trace m)
                = Some 18%nat) by (vm_compute; reflexivity).
  split; [exact Hpc|]. split; [vm_compute; reflexivity|]. split; [exact Hld|].
  intros (_ & (i & j & Hi & Hj & Hlt) & _).
  rewrite Hld in Hi. rewrite Hpc in Hj. injection Hi as <-. injection Hj as <-. lia.
Qed.

(** C6, as the board has it: the bootstrap first creates the CPU and sets
    its program counter to 0x1000, then sets up and registers the five
    regions, then loads the ROM image; when that succeeds it constructs
    the console and registers the read handlers on it, then initialises
    the keyboard buffer, then the timer with the tick callback; when it
    fails it reports the error and exits. *)
Theorem mos6502_init_call_order
    (bios : option string) (fs : gmap string (list Z))
    (ram_size : Z) (bd kf kc ifn cm : option string) :
  trace (machine_of (mos6502_init ram_size bd kf kc ifn cm (uninitialized bios fs)))
    = [call_cpu_init; call_set_pc 0x1000; call_get_system_memory] ++
      region_calls ++
      [call_load_image_targphys (bios_file bios) 0x1000 4096] ++
      (if image_fits bios fs
       then console_calls ++ [call_init_keyboard; call_init_timer]
       else [call_fprintf_stderr "Error loading bios file: %s\n" [arg_s (bios_file bios)];
             call_exit (-1)]).
Proof.
  destruct (mos6502_init_machine bios fs ram_size bd kf kc ifn cm) as (d & ->).
  destruct (image_fits bios fs); reflexivity.
Qed.

(** C7: when the image file can be read and holds at most 4096 bytes, the
    bootstrap returns, the program counter is 0x1000, and each byte of
    the image, byte 0 first, is read back at 0x1000 plus its position;
    when the file cannot be read, or holds more than 4096 bytes, the
    process exits with status -1 after the error message, inside the
    bootstrap, with no handler registered on the console or the timer. *)
Theorem mos6502_init_rom_image
    (bios : option string) (fs : gmap string (list Z))
    (ram_size : Z) (bd kf kc ifn cm : option string) :
  (∀ image, fs !! bios_file bios = Some image → Z.of_nat (length image) ≤ 4096 →
     ∃ m', mos6502_init ram_size bd kf kc ifn cm (uninitialized bios fs) = Returned tt m' ∧
           pc (cpu m') = 0x1000 ∧
           (∀ b, head image = Some b →
              ∀ keyb_not_ready size, cpu_read keyb_not_ready 0x1000 size m' = Returned b m') ∧
           (∀ (i : nat) b, image !! i = Some b →
              ∀ keyb_not_ready size,
                cpu_read keyb_not_ready (0x1000 + Z.of_nat i) size m' = Returned b m')) ∧
  ((fs !! bios_file bios = None ∨
    ∃ image, fs !! bios_file bios = Some image ∧ 4096 < Z.of_nat (length image)) →
     ∃ m', mos6502_init ram_size bd kf kc ifn cm (uninitialized bios fs) = Exited (-1) m' ∧
           stderr m' = [("Error loading bios file: %s\n", [arg_s (bios_file bios)])] ∧
           chr_handlers (console m') = false ∧
           timer_tick m' = false).
Proof.
  split.
  - intros image Hf Hlen.
    destruct (mos6502_init_loads bios fs image ram_size bd kf kc ifn cm Hf Hlen)
      as (d & -> & Hd).
    eexists; split; [reflexivity|]. split; [reflexivity|].
    assert (Hread : ∀ (i : nat) b, image !! i = Some b →
              ∀ keyb_not_ready size,
                cpu_read keyb_not_ready (0x1000 + Z.of_nat i) size
                  (ready_machine (bios_file bios) fs d)
                = Returned b (ready_machine (bios_file bios) fs d)).
    { intros i b Hi keyb_not_ready size.
      pose proof (lookup_lt_Some _ _ _ Hi) as Hlt.
      unfold cpu_read.
      rewrite (dispatch_rom (0x1000 + Z.of_nat i) d) by (reflexivity || lia).
      cbn [mr_backing mr_addr]. unfold load_byte. cbn [mr_ram].
      rewrite Hd. rewrite decide_True by lia.
      replace (Z.to_nat (0x1000 + Z.of_nat i - 0x1000)) with i by lia.
      rewrite Hi. reflexivity. }
    split; [|exact Hread].
    intros b Hb keyb_not_ready size.
    apply (Hread 0%nat b); destruct image; [discriminate | exact Hb].
  - intros Hf. rewrite mos6502_init_fails.
    + eexists; split; [reflexivity|]. repeat split.
    + destruct Hf as [-> | (image & -> & Hlen)]; [exact I | exact Hlen].
Qed.

(** An image of exactly 4096 bytes is loaded, one of 4097 bytes is fatal. *)
Lemma mos6502_init_rom_image_witness :
  (∃ m', mos6502_init 0 None None None None None
           (uninitialized None {[ BIOS_FILENAME := 0xA9 :: replicate 4095 0xEA ]})
         = Returned tt m' ∧
         pc (cpu m') = 0x1000 ∧
         cpu_read 0 0x1000 1 m' = Returned 0xA9 m') ∧
  (∃ m', mos6502_init 0 None None None None None
           (uninitialized None {[ BIOS_FILENAME := replicate 4097 0xEA ]})
         = Exited (-1) m').
Proof.
  split.
  - destruct (mos6502_init_rom_image None {[ BIOS_FILENAME := 0xA9 :: replicate 4095 0xEA ]}
                0 None None None None None) as (Hok & _).
    destruct (Hok (0xA9 :: replicate 4095 0xEA)) as (m' & E & Hpc & Hhd & _).
    + apply lookup_singleton_eq.
    + cbn [length]. rewrite length_replicate. lia.
    + exists m'. split; [exact E|]. split; [exact Hpc|]. apply Hhd. reflexivity.
  - destruct (mos6502_init_rom_image None {[ BIOS_FILENAME := replicate 4097 0xEA ]}
                0 None None None None None) as (_ & Hfail).
    destruct Hfail as (m' & E & _).
    + right. exists (replicate 4097 0xEA). split; [apply lookup_singleton_eq|].
      rewrite length_replicate. lia.
    + exists m'. exact E.
Defined.

(** ** The ROM for the life of the machine *)

Lemma rom_frame_refl l : rom_frame l l.
Proof. split; [reflexivity | auto]. Qed.

Lemma rom_frame_trans l1 l2 l3 : rom_frame l1 l2 → rom_frame l2 l3 → rom_frame l1 l3.
Proof.
  intros [E12 H12] [E23 H23]. split; [congruence|].
  intros i r Hi Hr. apply H23; [apply H12; assumption | assumption].
Qed.

Lemma store_byte_layout offset value r :
  region_layout (store_byte offset value r) = region_layout r.
Proof. reflexivity. Qed.

Lemma rom_frame_store l i r offset value :
  l !! i = Some r → mr_readonly r = false →
  rom_frame l (alter (store_byte offset value) i l).
Proof.
  intros Hi Hr. split.
  - apply list_eq. intros j. rewrite !list_lookup_fmap.
    destruct (decide (i = j)) as [->|Hne].
    + rewrite list_lookup_alter_eq. destruct (l !! j); reflexivity.
    + rewrite list_lookup_alter_ne by exact Hne. reflexivity.
  - intros j r' Hj Hr'. destruct (decide (i = j)) as [->|Hne].
    + congruence.
    + rewrite list_lookup_alter_ne by exact Hne. exact Hj.
Qed.

Lemma io_read_address_space keyb_not_ready addr size m :
  address_space (machine_of (io_read keyb_not_ready addr size m)) = address_space m.
Proof.
  unfold io_read, read_char.
  destruct (addr =? KEYB_READ_ADDR); [destruct (keyboard m); reflexivity|].
  destruct (addr =? TIMER_READ_ADDR); reflexivity.
Qed.

Lemma io_write_address_space addr value size m :
  address_space (machine_of (io_write addr value size m)) = address_space m.
Proof.
  unfold io_write.
  destruct (addr =? SCREEN_WRITE_ADDR).
  { run_board. destruct (uint8_t value =? char_lf); reflexivity. }
  destruct (addr =? CON_ECHO_WRITE_ADDR); [reflexivity|].
  destruct (addr =? TIMER_WRITE_ADDR); reflexivity.
Qed.

Lemma read_handler_body_address_space c m :
  ∃ m', read_handler_body c m = Returned tt m' ∧ address_space m' = address_space m.
Proof.
  unfold read_handler_body.
  destruct (c =? char_slash); [eexists; split; reflexivity|].
  destruct (c =? char_star); [eexists; split; reflexivity|].
  destruct (c =? char_minus); eexists; split; reflexivity.
Qed.

Lemma read_handler_loop_address_space data todo : ∀ i m,
  address_space (machine_of (read_handler_loop data i todo m)) = address_space m.
Proof.
  induction todo as [|todo IH]; intros i m; [reflexivity|].
  cbn [read_handler_loop]. cbv [mbind M_bind].
  destruct (read_handler_body_address_space (nth i data 0) m) as (m' & -> & E).
  rewrite IH. exact E.
Qed.

Lemma cpu_read_address_space keyb_not_ready addr size m :
  address_space (machine_of (cpu_read keyb_not_ready addr size m)) = address_space m.
Proof.
  unfold cpu_read.
  destruct (dispatch addr m) as [[i r]|]; [|reflexivity].
  destruct (mr_backing r); [reflexivity|].
  destruct (access_valid _ size); [|reflexivity].
  apply io_read_address_space.
Qed.

Lemma cpu_write_rom_frame keyb_not_ready addr value size m :
  rom_frame (address_space m)
    (address_space (machine_of (cpu_write keyb_not_ready addr value size m))).
Proof.
  unfold cpu_write.
  destruct (dispatch addr m) as [[i r]|] eqn:Hd; [|apply rom_frame_refl].
  apply dispatch_lookup in Hd as [Hi _].
  destruct (mr_backing r).
  - destruct (mr_readonly r) eqn:Hr; [apply rom_frame_refl|].
    apply (rom_frame_store _ i r); assumption.
  - destruct (access_valid _ size); [|apply rom_frame_refl].
    cbn [ops_write io_ops]. rewrite io_write_address_space. apply rom_frame_refl.
Qed.

Lemma run_event_rom_frame keyb_not_ready e m :
  rom_frame (address_space m) (address_space (machine_of (run_event keyb_not_ready e m))).
Proof.
  destruct e as [addr size|addr value size|data|]; cbn [run_event].
  - cbv [mbind M_bind mret M_ret].
    pose proof (cpu_read_address_space keyb_not_ready addr size m) as E.
    destruct (cpu_read keyb_not_ready addr size m); cbn [machine_of] in *;
      rewrite E; apply rom_frame_refl.
  - apply cpu_write_rom_frame.
  - destruct (chr_handlers (console m)); [|apply rom_frame_refl].
    unfold read_handler. rewrite read_handler_loop_address_space. apply rom_frame_refl.
  - destruct (timer_tick m); apply rom_frame_refl.
Qed.

Lemma run_events_rom_frame keyb_not_ready es : ∀ m,
  rom_frame (address_space m) (address_space (machine_of (run_events keyb_not_ready es m))).
Proof.
  induction es as [|e es IH]; intros m; [apply rom_frame_refl|].
  cbn [run_events]. cbv [mbind M_bind].
  pose proof (run_event_rom_frame keyb_not_ready e m) as He.
  destruct (run_event keyb_not_ready e m) as [[] m1|status m1]; cbn [machine_of] in *.
  - eapply rom_frame_trans; [exact He | apply IH].
  - exact He.
Qed.

(** No event of the running machine ends the process. *)
Lemma run_events_returns keyb_not_ready es : ∀ m,
  ∃ m', run_events keyb_not_ready es m = Returned tt m'.
Proof.
  induction es as [|e es IH]; intros m; [eexists; reflexivity|].
  cbn [run_events]. cbv [mbind M_bind].
  assert (He : ∃ m1, run_event keyb_not_ready e m = Returned tt m1).
  { destruct e as [addr size|addr value size|data|]; cbn [run_event].
    - cbv [mbind M_bind mret M_ret]. unfold cpu_read.
      destruct (dispatch addr m) as [[i r]|]; [|eexists; reflexivity].
      destruct (mr_backing r); [eexists; reflexivity|].
      destruct (access_valid _ size); [|eexists; reflexivity].
      cbn [ops_read io_ops]. unfold io_read, read_char.
      destruct (_ =? KEYB_READ_ADDR); [destruct (keyboard m); eexists; reflexivity|].
      destruct (_ =? TIMER_READ_ADDR); eexists; reflexivity.
    - unfold cpu_write.
      destruct (dispatch addr m) as [[i r]|]; [|eexists; reflexivity].
      destruct (mr_backing r); [destruct (mr_readonly r); eexists; reflexivity|].
      destruct (access_valid _ size); [|eexists; reflexivity].
      cbn [ops_write io_ops]. unfold io_write.
      destruct (_ =? SCREEN_WRITE_ADDR).
      { run_board. destruct (uint8_t value =? char_lf); eexists; reflexivity. }
      destruct (_ =? CON_ECHO_WRITE_ADDR); [eexists; reflexivity|].
      destruct (_ =? TIMER_WRITE_ADDR); eexists; reflexivity.
    - destruct (chr_handlers (console m)); [|eexists; reflexivity].
      unfold read_handler. generalize (Z.to_nat (Z.of_nat (length data))) 0%nat.
      intros todo. revert m. induction todo as [|todo IHt]; intros m i0;
        [eexists; reflexivity|].
      cbn [read_handler_loop]. cbv [mbind M_bind].
      destruct (read_handler_body_address_space (nth i0 data 0) m) as (m' & -> & _).
      apply IHt.
    - destruct (timer_tick m); eexists; reflexivity. }
  destruct He as (m1 & ->). apply IH.
Qed.

Lemma dispatch_rom_framed a d m :
  rom_frame (board_regions d) (address_space m) →
  0x1000 ≤ a ≤ 0x1FFF →
  dispatch a m = Some (1%nat, mkRegion "6502.rom" 4096 ram_block true 0x1000 d).
Proof.
  intros [Hlayout Hrom] Ha. unfold dispatch.
  pose proof (regions_at_layout a _ _ 0 Hlayout) as Hpos.
  rewrite regions_at_rom in Hpos by exact Ha.
  destruct (regions_at a 0 (address_space m)) as [|[i r] [|? ?]] eqn:E; try discriminate Hpos.
  injection Hpos as ->.
  destruct (regions_at_lookup a (address_space m) 0 1 r) as (_ & Hl & _).
  { rewrite E. apply list_elem_of_here. }
  cbn in Hl. rewrite (Hrom 1%nat _ eq_refl eq_refl) in Hl. injection Hl as <-.
  reflexivity.
Qed.

Lemma mos6502_init_returned bios fs ram_size bd kf kc ifn cm m0 :
  mos6502_init ram_size bd kf kc ifn cm (uninitialized bios fs) = Returned tt m0 →
  ∃ image d, fs !! bios_file bios = Some image ∧
    Z.of_nat (length image) ≤ 4096 ∧
    m0 = ready_machine (bios_file bios) fs d ∧
    ∀ j : Z, d !! j = if decide (0 ≤ j < Z.of_nat (length image))
                      then image !! Z.to_nat j else None.
Proof.
  intros Hinit.
  destruct (fs !! bios_file bios) as [image|] eqn:Hf.
  - destruct (Z.le_gt_cases (Z.of_nat (length image)) 4096) as [Hlen|Hlen].
    + destruct (mos6502_init_loads bios fs image ram_size bd kf kc ifn cm Hf Hlen)
        as (d & E & Hd).
      rewrite E in Hinit. injection Hinit as <-.
      exists image, d. repeat split; assumption.
    + rewrite mos6502_init_fails in Hinit; [discriminate|]. rewrite Hf. exact Hlen.
  - rewrite mos6502_init_fails in Hinit; [discriminate|]. rewrite Hf. exact I.
Qed.

(** C9: take the machine as the bootstrap leaves it and let anything
    happen to it, writes to ROM addresses included.  Then a write of any
    value and width at any address of 0x1000-0x1FFF changes nothing of
    the machine, and a read there returns the byte that was there right
    after the bootstrap, the byte of the image at that position (0 past
    the end of the image). *)
Theorem rom_write_has_no_effect
    (keyb_not_ready : Z) (bios : option string) (fs : gmap string (list Z))
    (ram_size : Z) (bd kf kc ifn cm : option string)
    (m0 : Machine) (es : list machine_event) (a : Z) :
  mos6502_init ram_size bd kf kc ifn cm (uninitialized bios fs) = Returned tt m0 →
  0x1000 ≤ a ≤ 0x1FFF →
  ∃ m b,
    run_events keyb_not_ready es m0 = Returned tt m ∧
    (∀ value size, cpu_write keyb_not_ready a value size m = Returned tt m) ∧
    (∀ size, cpu_read keyb_not_ready a size m0 = Returned b m0) ∧
    (∀ size, cpu_read keyb_not_ready a size m = Returned b m) ∧
    (∀ image, fs !! bios_file bios = Some image →
       b = default 0 (image !! Z.to_nat (a - 0x1000))).
Proof.
  intros Hinit Ha.
  apply mos6502_init_returned in Hinit as (image & d & Hf & Hlen & -> & Hd).
  destruct (run_events_returns keyb_not_ready es (ready_machine (bios_file bios) fs d))
    as (m & Hrun).
  pose proof (run_events_rom_frame keyb_not_ready es (ready_machine (bios_file bios) fs d))
    as Hframe.
  rewrite Hrun in Hframe. cbn [machine_of ready_machine address_space] in Hframe.
  exists m, (load_byte (a - 0x1000) (mkRegion "6502.rom" 4096 ram_block true 0x1000 d)).
  split; [exact Hrun|]. repeat split.
  - intros value size. unfold cpu_write.
    rewrite (dispatch_rom_framed a d m Hframe Ha). reflexivity.
  - intros size. unfold cpu_read.
    rewrite (dispatch_rom a d) by (reflexivity || exact Ha). reflexivity.
  - intros size. unfold cpu_read.
    rewrite (dispatch_rom_framed a d m Hframe Ha). reflexivity.
  - intros image' Hf'. rewrite Hf in Hf'. injection Hf' as <-.
    unfold load_byte. cbn [mr_ram]. rewrite Hd.
    case_decide as Hin.
    + reflexivity.
    + rewrite (lookup_ge_None_2 image) by lia. reflexivity.
Qed.

Lemma rom_write_has_no_effect_witness :
  let fs := {[ BIOS_FILENAME := [0xA9; 0x41] ]} : gmap string (list Z) in
  let m0 := machine_of (mos6502_init 0 None None None None None (uninitialized None fs)) in
  let es := [ev_cpu_write 0x1000 0xFF 1; ev_console_input [47; 65];
             ev_cpu_write 0x0010 0x07 1; ev_timer_tick; ev_cpu_read 0x1001 1] in
  ∃ m, run_events 0 es m0 = Returned tt m ∧
       cpu_write 0 0x1000 0xFF 1 m = Returned tt m ∧
       cpu_read 0 0x1000 1 m = Returned 0xA9 m.
Proof.
  intros fs m0 es.
  destruct (rom_write_has_no_effect 0 None fs 0 None None None None None m0 es 0x1000)
    as (m & b & Hrun & Hw & _ & Hr & Hb).
  - vm_compute. reflexivity.
  - lia.
  - exists m. split; [exact Hrun|]. split; [apply Hw|].
    rewrite (Hb [0xA9; 0x41]) in Hr by (vm_compute; reflexivity). apply Hr.
Defined.

(** * More of the board file *)

(** ** The read handler on a whole buffer *)

Lemma bool_decide_elem_of_cons (x c : Z) (l : list Z) :
  bool_decide (x ∈ c :: l) = bool_decide (x = c) || bool_decide (x ∈ l).
Proof. rewrite <- bool_decide_or. apply bool_decide_ext, elem_of_cons. Qed.

(** What a delivered buffer leaves behind. *)
Lemma read_handler_buffer data : ∀ m,
  ∃ m', read_handler data (Z.of_nat (length data)) m = Returned tt m' ∧
    keyboard m' = keyboard m ++ filter ordinary data ∧
    pc (cpu m') = pc (cpu m) ∧
    irq_pending (cpu m') = irq_pending (cpu m) || bool_decide (char_slash ∈ data) ∧
    nmi_pending (cpu m') = nmi_pending (cpu m) || bool_decide (char_star ∈ data) ∧
    reset_pending (cpu m') = reset_pending (cpu m) || bool_decide (char_minus ∈ data) ∧
    console m' = console m ∧
    timer_value m' = timer_value m ∧
    timer_tick m' = timer_tick m ∧
    address_space m' = address_space m ∧
    stderr m' = stderr m ∧
    length (trace m') = (length (trace m) + length data)%nat.
Proof.
  induction data as [|c data IH]; intros m.
  - exists m. split; [reflexivity|]. rewrite app_nil_r, !orb_false_r, Nat.add_0_r.
    repeat split.
  - rewrite read_handler_cons. cbv [mbind M_bind].
    rewrite read_handler_body_cases, !(bool_decide_elem_of_cons _ c).
    destruct (decide (c = char_slash)) as [->|Hs];
      [|destruct (decide (c = char_star)) as [->|Ht];
        [|destruct (decide (c = char_minus)) as [->|Hm]]];
      run_board;
      match goal with |- context [read_handler data _ ?m1] =>
        destruct (IH m1) as (m' & -> & Hk & Hpc & Hi & Hn & Hr & Hc & Htv & Htt & Ha & He & Hl)
      end;
      exists m'; (split; [reflexivity|]);
      rewrite Hk, Hpc, Hi, Hn, Hr, Hc, Htv, Htt, Ha, He, Hl.
    + rewrite filter_cons_False by (intros (? & _); congruence).
      unfold char_slash, char_star, char_minus. cbn. rewrite length_app, ?orb_true_r. cbn.
      repeat split; try lia.
    + rewrite filter_cons_False by (intros (_ & ? & _); congruence).
      unfold char_slash, char_star, char_minus. cbn. rewrite length_app, ?orb_true_r. cbn.
      repeat split; try lia.
    + rewrite filter_cons_False by (intros (_ & _ & ?); congruence).
      unfold char_slash, char_star, char_minus. cbn. rewrite length_app, ?orb_true_r. cbn.
      repeat split; try lia.
    + rewrite filter_cons_True by (repeat split; assumption).
      rewrite (bool_decide_false (char_slash = c)), (bool_decide_false (char_star = c)),
        (bool_decide_false (char_minus = c)) by congruence.
      cbn. rewrite length_app, <- app_assoc. cbn. repeat split; try lia.
Qed.

(** X1: with a length of zero, or a negative one, the read handler looks
    at no byte of the buffer and leaves the machine as it is. *)
Theorem read_handler_no_length (data : list Z) (datalen : Z) (m : Machine) :
  datalen ≤ 0 → read_handler data datalen m = Returned tt m.
Proof.
  intros Hlen. unfold read_handler.
  replace (Z.to_nat datalen) with 0%nat by lia. reflexivity.
Qed.

Lemma read_handler_no_length_witness :
  read_handler [char_slash; char_minus] 0 (uninitialized None ∅)
    = Returned tt (uninitialized None ∅) ∧
  read_handler [char_slash; char_minus] (-1) (uninitialized None ∅)
    = Returned tt (uninitialized None ∅).
Proof.
  split; apply (read_handler_no_length [char_slash; char_minus]); lia.
Defined.

Lemma read_handler_loop_take data n todo : ∀ i m,
  (i + todo ≤ n)%nat →
  read_handler_loop data i todo m = read_handler_loop (take n data) i todo m.
Proof.
  induction todo as [|todo IH]; intros i m Hn; [reflexivity|].
  cbn [read_handler_loop]. cbv [mbind M_bind].
  rewrite !nth_lookup, lookup_take_lt by lia.
  destruct (read_handler_body _ m); [apply IH; lia | reflexivity].
Qed.

(** X2: the read handler only looks at the first [datalen] bytes.  To
    deliver a buffer with a shorter length is to deliver its prefix of
    that length; the bytes behind it, interrupt triggers included, have
    no effect. *)
Theorem read_handler_prefix (data : list Z) (n : nat) (m : Machine) :
  (n ≤ length data)%nat →
  read_handler data (Z.of_nat n) m
    = read_handler (take n data) (Z.of_nat (length (take n data))) m.
Proof.
  intros Hn. rewrite length_take_le by exact Hn.
  unfold read_handler. rewrite Nat2Z.id.
  apply read_handler_loop_take. lia.
Qed.

Lemma read_handler_prefix_witness :
  read_handler [65; char_minus; char_star] 1 (uninitialized None ∅)
    = read_handler [65] 1 (uninitialized None ∅).
Proof.
  apply (read_handler_prefix [65; char_minus; char_star] 1 (uninitialized None ∅)).
  cbn. lia.
Defined.

(** X3: a delivered buffer, whatever its bytes, makes one host call per
    byte and returns.  The ordinary bytes are appended to the keyboard
    buffer in the order received, none dropped and none merged, and no
    trigger byte is; an interrupt class is pending afterwards when it was
    pending before or its trigger byte is in the buffer; the program
    counter, the console, the timer, the memory and stderr are as
    before. *)
Theorem read_handler_whole_buffer (data : list Z) (m : Machine) :
  ∃ m', read_handler data (Z.of_nat (length data)) m = Returned tt m' ∧
    keyboard m' = keyboard m ++ filter ordinary data ∧
    pc (cpu m') = pc (cpu m) ∧
    irq_pending (cpu m') = irq_pending (cpu m) || bool_decide (char_slash ∈ data) ∧
    nmi_pending (cpu m') = nmi_pending (cpu m) || bool_decide (char_star ∈ data) ∧
    reset_pending (cpu m') = reset_pending (cpu m) || bool_decide (char_minus ∈ data) ∧
    console m' = console m ∧
    timer_value m' = timer_value m ∧
    timer_tick m' = timer_tick m ∧
    address_space m' = address_space m ∧
    stderr m' = stderr m ∧
    length (trace m') = (length (trace m) + length data)%nat.
Proof. apply read_handler_buffer. Qed.

(** ** The timer callback and the IRQ key *)

(** X4: a timer tick does to the machine exactly what the key ['/'] does
    when the console delivers it: the same single call into the CPU core.
    And ticks do not add up on the CPU: after a second tick the CPU is as
    after the first. *)
Theorem timer_callback_is_irq_key (m : Machine) :
  timer_callback m = read_handler [char_slash] 1 m ∧
  cpu (machine_of ((timer_callback ;; timer_callback) m))
    = cpu (machine_of (timer_callback m)).
Proof.
  split.
  - rewrite read_handler_single. reflexivity.
  - reflexivity.
Qed.

(** ** What the I/O callbacks leave alone *)

(** X5: a read at any I/O offset and of any width returns to the caller.
    It never writes to the console or changes its echo, never asserts an
    interrupt, never changes the timer or the memory; only a read at
    0x00 takes a character out of the keyboard buffer, and only a read at
    an offset other than 0x00 and 0x02 writes to stderr. *)
Theorem io_read_leaves_devices (keyb_not_ready addr size : Z) (m : Machine) :
  ∃ v m', io_read keyb_not_ready addr size m = Returned v m' ∧
    cpu m' = cpu m ∧
    console m' = console m ∧
    timer_value m' = timer_value m ∧
    timer_tick m' = timer_tick m ∧
    address_space m' = address_space m ∧
    (addr ≠ KEYB_READ_ADDR → keyboard m' = keyboard m) ∧
    (addr = KEYB_READ_ADDR ∨ addr = TIMER_READ_ADDR → stderr m' = stderr m) ∧
    (addr = TIMER_READ_ADDR → v = timer_value m).
Proof.
  unfold io_read, read_char.
  destruct (Z.eqb_spec addr KEYB_READ_ADDR) as [->|H0].
  - destruct (keyboard m) as [|c rest]; do 2 eexists; (split; [reflexivity|]);
      repeat split; try discriminate; intros; congruence.
  - destruct (Z.eqb_spec addr TIMER_READ_ADDR) as [->|H2].
    + do 2 eexists; split; [reflexivity|]. repeat split.
    + do 2 eexists; split; [reflexivity|]. repeat split; tauto.
Qed.

Lemma io_read_leaves_devices_witness :
  ∃ v m', io_read 0 TIMER_READ_ADDR 1 (uninitialized None ∅) = Returned v m' ∧
          v = 0 ∧ stderr m' = [] ∧ keyboard m' = [].
Proof.
  destruct (io_read_leaves_devices 0 TIMER_READ_ADDR 1 (uninitialized None ∅))
    as (v & m' & E & _ & _ & _ & _ & _ & Hk & He & Hv).
  exists v, m'. split; [exact E|]. split; [apply Hv; reflexivity|].
  split; [apply He; right; reflexivity | apply Hk; discriminate].
Defined.

(** X6: a write at any I/O offset, of any value and width, returns to the
    caller.  It never asserts an interrupt or touches the program
    counter, never changes the keyboard buffer or the memory; it changes
    the console only at 0x00 and 0x01, the timer only at 0x02, and
    writes to stderr only at the other offsets. *)
Theorem io_write_leaves_devices (addr value size : Z) (m : Machine) :
  ∃ m', io_write addr value size m = Returned tt m' ∧
    cpu m' = cpu m ∧
    keyboard m' = keyboard m ∧
    address_space m' = address_space m ∧
    timer_tick m' = timer_tick m ∧
    (addr ≠ SCREEN_WRITE_ADDR → addr ≠ CON_ECHO_WRITE_ADDR → console m' = console m) ∧
    (addr ≠ TIMER_WRITE_ADDR → timer_value m' = timer_value m) ∧
    (addr = SCREEN_WRITE_ADDR ∨ addr = CON_ECHO_WRITE_ADDR ∨ addr = TIMER_WRITE_ADDR →
       stderr m' = stderr m).
Proof.
  unfold io_write.
  destruct (Z.eqb_spec addr SCREEN_WRITE_ADDR) as [->|H0].
  { run_board. destruct (uint8_t value =? char_lf);
      (eexists; split; [reflexivity|]); repeat split; try discriminate;
      intros; congruence. }
  destruct (Z.eqb_spec addr CON_ECHO_WRITE_ADDR) as [->|H1].
  { eexists; split; [reflexivity|]. repeat split; try discriminate; intros; congruence. }
  destruct (Z.eqb_spec addr TIMER_WRITE_ADDR) as [->|H2].
  { eexists; split; [reflexivity|]. repeat split; intros; congruence. }
  eexists; split; [reflexivity|]. repeat split. intros [?|[?|?]]; contradiction.
Qed.

Lemma io_write_leaves_devices_witness :
  ∃ m', io_write TIMER_WRITE_ADDR 0x1FF 2 (uninitialized None ∅) = Returned tt m' ∧
        console m' = console (uninitialized None ∅) ∧ stderr m' = [].
Proof.
  destruct (io_write_leaves_devices TIMER_WRITE_ADDR 0x1FF 2 (uninitialized None ∅))
    as (m' & E & _ & _ & _ & _ & Hc & _ & He).
  exists m'. split; [exact E|].
  split; [apply Hc; discriminate | apply He; right; right; reflexivity].
Defined.

(** X7: a write at 0x01 sets the echo from the value alone, on for a
    nonzero value and off for zero, whatever it was before; it sends the
    console no byte; and to repeat the write leaves the console as the
    first write left it. *)
Theorem io_write_echo_idempotent (value size size' : Z) (m : Machine) :
  ∃ m1 m2,
    io_write CON_ECHO_WRITE_ADDR value size m = Returned tt m1 ∧
    io_write CON_ECHO_WRITE_ADDR value size' m1 = Returned tt m2 ∧
    chr_echo (console m1) = bool_decide (value ≠ 0) ∧
    chr_out (console m1) = chr_out (console m) ∧
    console m2 = console m1.
Proof.
  do 2 eexists. split; [reflexivity|]. split; [reflexivity|].
  cbn. destruct (Z.eqb_spec value 0);
    [rewrite bool_decide_false by tauto | rewrite bool_decide_true by tauto];
    repeat split.
Qed.

(** ** A run of screen writes *)

Lemma io_write_screen_returns value size m :
  ∃ m', io_write SCREEN_WRITE_ADDR value size m = Returned tt m' ∧
        chr_out (console m') = chr_out (console m) ++ screen_bytes value.
Proof.
  pose proof (io_write_screen_out value size m) as Hout.
  unfold io_write in *. cbn [SCREEN_WRITE_ADDR Z.eqb] in *. revert Hout. run_board.
  destruct (uint8_t value =? char_lf); intros Hout; eexists; (split; [reflexivity|]);
    exact Hout.
Qed.

Lemma length_screen_bytes value :
  length (screen_bytes value)
    = (1 + (if decide (uint8_t value = char_lf) then 1 else 0))%nat.
Proof. unfold screen_bytes. case_decide; reflexivity. Qed.

(** X8: a program that writes a run of values at the screen offset gets
    on the console the low byte of each value in the order written, with
    a carriage return after every line feed and nowhere else: as many
    bytes as values written plus one for each line feed. *)
Theorem screen_write_all_output (values : list Z) (size : Z) (m : Machine) :
  ∃ m', screen_write_all values size m = Returned tt m' ∧
    chr_out (console m') = chr_out (console m) ++ concat (map screen_bytes values) ∧
    length (concat (map screen_bytes values))
      = (length values + length (filter (λ v, uint8_t v = char_lf) values))%nat.
Proof.
  revert m. induction values as [|value values IH]; intros m.
  - exists m. split; [reflexivity|]. cbn. rewrite app_nil_r. split; reflexivity.
  - cbn [screen_write_all]. cbv [mbind M_bind].
    destruct (io_write_screen_returns value size m) as (m1 & -> & Hout1).
    destruct (IH m1) as (m' & -> & Hout & Hlen).
    exists m'. split; [reflexivity|]. split.
    + rewrite Hout, Hout1. cbn [map concat]. rewrite app_assoc. reflexivity.
    + cbn [map concat]. rewrite length_app, Hlen, length_screen_bytes.
      case_decide as E.
      * rewrite filter_cons_True by exact E. cbn [length]. lia.
      * rewrite filter_cons_False by exact E. cbn [length]. lia.
Qed.

(** ** From the console to the keyboard offset *)

(** X9: with no character waiting before, the first read at 0x00 after a
    delivered buffer returns the first ordinary byte of that buffer,
    never a trigger byte, and leaves the ordinary bytes behind it
    waiting; when the buffer held trigger bytes only, or nothing, the
    read returns the not-ready value. *)
Theorem io_read_after_read_handler
    (keyb_not_ready size : Z) (data : list Z) (m : Machine) :
  keyboard m = [] →
  ∃ m1 m2,
    read_handler data (Z.of_nat (length data)) m = Returned tt m1 ∧
    io_read keyb_not_ready KEYB_READ_ADDR size m1
      = Returned (default keyb_not_ready (head (filter ordinary data))) m2 ∧
    keyboard m2 = tail (filter ordinary data).
Proof.
  intros Hempty.
  destruct (read_handler_buffer data m) as (m1 & E & Hk & _).
  rewrite Hempty in Hk. cbn [app] in Hk.
  exists m1. unfold io_read, read_char. cbn [KEYB_READ_ADDR Z.eqb].
  rewrite Hk. destruct (filter ordinary data) as [|c rest];
    eexists; (split; [exact E|]); (split; [reflexivity|]).
  - exact Hk.
  - reflexivity.
Qed.

Lemma io_read_after_read_handler_witness :
  ∃ m1 m2,
    read_handler [char_star; 65; char_slash; 66] 4 (uninitialized None ∅) = Returned tt m1 ∧
    io_read 0 KEYB_READ_ADDR 1 m1 = Returned 65 m2 ∧
    keyboard m2 = [66].
Proof.
  destruct (io_read_after_read_handler 0 1 [char_star; 65; char_slash; 66]
              (uninitialized None ∅) eq_refl) as (m1 & m2 & E1 & E2 & Hk).
  exists m1, m2. split; [exact E1|]. split; [exact E2 | exact Hk].
Defined.

(** ** The address space the bootstrap builds *)

(** X10: the whole map of the address space after the bootstrap, whatever
    the host.  Every address of 0x0000-0xFFFF is in a registered region
    and no other address is: 0x0000-0x0FFF in 6502.ram1 alone,
    0x1000-0x1FFF in 6502.rom alone, 0x2000-0xFDFF in 6502.ram2 alone and
    0xFFF0-0xFFFF in 6502.ram3 alone, while each address of 0xFE00-0xFEFF
    is in both 6502.ram2 and 6502.io and each of 0xFF00-0xFFEF in both
    6502.ram2 and 6502.ram3. *)
Theorem mos6502_init_address_map
    (bios : option string) (fs : gmap string (list Z))
    (ram_size : Z) (bd kf kc ifn cm : option string) (a : Z) :
  let m := machine_of (mos6502_init ram_size bd kf kc ifn cm (uninitialized bios fs)) in
  (λ ir, mr_name ir.2) <$> regions_at a 0 (address_space m) =
    if decide (a < 0x0000) then []
    else if decide (a ≤ 0x0FFF) then ["6502.ram1"]
    else if decide (a ≤ 0x1FFF) then ["6502.rom"]
    else if decide (a ≤ 0xFDFF) then ["6502.ram2"]
    else if decide (a ≤ 0xFEFF) then ["6502.ram2"; "6502.io"]
    else if decide (a ≤ 0xFFEF) then ["6502.ram2"; "6502.ram3"]
    else if decide (a ≤ 0xFFFF) then ["6502.ram3"]
    else [].
Proof.
  intros m. subst m.
  destruct (mos6502_init_address_space bios fs ram_size bd kf kc ifn cm) as (d & ->).
  cbn [regions_at board_regions]. unfold region_contains. cbn [mr_addr mr_size].
  repeat case_decide; bounds; reflexivity.
Qed.

(** ** The files the bootstrap reads *)

(** X11: of the files of the host the bootstrap reads one, the file
    [bios_name] names or, without a name, 6502_bios.rom.  Two hosts that
    agree on that file end the bootstrap alike, returning or exiting, with
    the same machine; no other file, the default one included when a name
    is given, makes a difference. *)
Theorem mos6502_init_reads_one_file
    (bios : option string) (fs fs' : gmap string (list Z))
    (ram_size : Z) (bd kf kc ifn cm : option string) :
  fs !! bios_file bios = fs' !! bios_file bios →
  exit_status (mos6502_init ram_size bd kf kc ifn cm (uninitialized bios fs))
    = exit_status (mos6502_init ram_size bd kf kc ifn cm (uninitialized bios fs')) ∧
  machine_but_files
      (machine_of (mos6502_init ram_size bd kf kc ifn cm (uninitialized bios fs)))
    = machine_but_files
        (machine_of (mos6502_init ram_size bd kf kc ifn cm (uninitialized bios fs'))).
Proof.
  intros Hsame.
  destruct (fs !! bios_file bios) as [image|] eqn:Hf; symmetry in Hsame.
  - destruct (Z.le_gt_cases (Z.of_nat (length image)) 4096) as [Hlen|Hlen].
    + destruct (mos6502_init_loads bios fs image ram_size bd kf kc ifn cm Hf Hlen)
        as (d & -> & Hd).
      destruct (mos6502_init_loads bios fs' image ram_size bd kf kc ifn cm Hsame Hlen)
        as (d' & -> & Hd').
      assert (d = d') as <-.
      { apply map_eq. intros j. rewrite Hd, Hd'. reflexivity. }
      split; reflexivity.
    + rewrite !mos6502_init_fails; [split; reflexivity | |].
      * rewrite Hsame. exact Hlen.
      * rewrite Hf. exact Hlen.
  - rewrite !mos6502_init_fails; [split; reflexivity | |].
    + rewrite Hsame. exact I.
    + rewrite Hf. exact I.
Qed.

Lemma mos6502_init_reads_one_file_witness :
  let fs : gmap string (list Z) := {[ "my.rom" := [0xEA] ]} in
  let fs' : gmap string (list Z) := <[ BIOS_FILENAME := replicate 4097 0 ]> fs in
  exit_status (mos6502_init 0 None None None None None (uninitialized (Some "my.rom") fs))
    = exit_status (mos6502_init 0 None None None None None (uninitialized (Some "my.rom") fs')).
Proof.
  intros fs fs'.
  apply (mos6502_init_reads_one_file (Some "my.rom") fs fs' 0 None None None None None).
  vm_compute. reflexivity.
Defined.

(** ** The console before and after the bootstrap *)

(** X12: before the bootstrap the console has no handler and what it
    delivers is dropped.  On the machine the bootstrap returns, a
    delivered buffer reaches the read handler: its ordinary bytes are the
    characters waiting, an interrupt class is pending exactly when the
    buffer holds its trigger byte, the program counter is still 0x1000 and
    nothing was written to the console. *)
Theorem console_input_after_bootstrap
    (keyb_not_ready : Z) (bios : option string) (fs : gmap string (list Z))
    (ram_size : Z) (bd kf kc ifn cm : option string)
    (m0 : Machine) (data : list Z) :
  mos6502_init ram_size bd kf kc ifn cm (uninitialized bios fs) = Returned tt m0 →
  run_event keyb_not_ready (ev_console_input data) (uninitialized bios fs)
    = Returned tt (uninitialized bios fs) ∧
  ∃ m1, run_event keyb_not_ready (ev_console_input data) m0 = Returned tt m1 ∧
    keyboard m1 = filter ordinary data ∧
    pc (cpu m1) = 0x1000 ∧
    irq_pending (cpu m1) = bool_decide (char_slash ∈ data) ∧
    nmi_pending (cpu m1) = bool_decide (char_star ∈ data) ∧
    reset_pending (cpu m1) = bool_decide (char_minus ∈ data) ∧
    chr_out (console m1) = [].
Proof.
  intros Hinit. split; [reflexivity|].
  apply mos6502_init_returned in Hinit as (image & d & _ & _ & -> & _).
  destruct (read_handler_buffer data (ready_machine (bios_file bios) fs d))
    as (m1 & E & Hk & Hpc & Hi & Hn & Hr & Hc & _).
  exists m1. split; [exact E|].
  rewrite Hk, Hpc, Hi, Hn, Hr, Hc. repeat split.
Qed.

Lemma console_input_after_bootstrap_witness :
  let fs : gmap string (list Z) := {[ BIOS_FILENAME := [0xEA] ]} in
  let m0 := machine_of (mos6502_init 0 None None None None None (uninitialized None fs)) in
  ∃ m1, run_event 0 (ev_console_input [65; char_slash; 66]) m0 = Returned tt m1 ∧
    keyboard m1 = [65; 66] ∧
    cpu m1 = mkCPU 0x1000 true false false.
Proof.
  intros fs m0.
  destruct (console_input_after_bootstrap 0 None fs 0 None None None None None m0
              [65; char_slash; 66]) as (_ & m1 & E & Hk & Hpc & Hi & Hn & Hr & _).
  - vm_compute. reflexivity.
  - exists m1. split; [exact E|]. split; [exact Hk|].
    destruct (cpu m1) as [p i n r]. cbn in Hpc, Hi, Hn, Hr. subst. reflexivity.
Defined.

(** ** The running machine never exits *)

Lemma io_read_wiring keyb_not_ready addr size m :
  ∃ v m', io_read keyb_not_ready addr size m = Returned v m' ∧ wiring m' = wiring m.
Proof.
  unfold io_read, read_char.
  destruct (addr =? KEYB_READ_ADDR);
    [destruct (keyboard m); do 2 eexists; split; reflexivity|].
  destruct (addr =? TIMER_READ_ADDR); do 2 eexists; split; reflexivity.
Qed.

Lemma io_write_wiring addr value size m :
  ∃ m', io_write addr value size m = Returned tt m' ∧ wiring m' = wiring m.
Proof.
  unfold io_write.
  destruct (addr =? SCREEN_WRITE_ADDR).
  { run_board. destruct (uint8_t value =? char_lf); eexists; split; reflexivity. }
  destruct (addr =? CON_ECHO_WRITE_ADDR); [eexists; split; reflexivity|].
  destruct (addr =? TIMER_WRITE_ADDR); eexists; split; reflexivity.
Qed.

Lemma run_event_wiring keyb_not_ready e m :
  ∃ m', run_event keyb_not_ready e m = Returned tt m' ∧ wiring m' = wiring m.
Proof.
  destruct e as [addr size|addr value size|data|]; cbn [run_event].
  - cbv [mbind M_bind mret M_ret]. unfold cpu_read.
    destruct (dispatch addr m) as [[i r]|]; [|eexists; split; reflexivity].
    destruct (mr_backing r); [eexists; split; reflexivity|].
    destruct (access_valid _ size); [|eexists; split; reflexivity].
    cbn [ops_read io_ops].
    destruct (io_read_wiring keyb_not_ready (addr - mr_addr r) size m) as (v & m' & -> & Hw).
    exists m'. split; [reflexivity | exact Hw].
  - unfold cpu_write.
    destruct (dispatch addr m) as [[i r]|]; [|eexists; split; reflexivity].
    destruct (mr_backing r);
      [destruct (mr_readonly r); eexists; split; reflexivity|].
    destruct (access_valid _ size); [|eexists; split; reflexivity].
    cbn [ops_write io_ops]. apply io_write_wiring.
  - destruct (chr_handlers (console m)); [|eexists; split; reflexivity].
    destruct (read_handler_buffer data m) as (m' & E & _ & Hpc & _ & _ & _ & Hc & _ & Ht & _).
    exists m'. split; [exact E|]. unfold wiring. rewrite Hpc, Hc, Ht. reflexivity.
  - destruct (timer_tick m); eexists; split; reflexivity.
Qed.

(** X13: once the machine runs, nothing the board does ends the process:
    any run of CPU reads and writes, console deliveries and timer ticks,
    unmapped addresses and unmatched I/O offsets included, returns; and it
    leaves the program counter and the registrations of the read handlers
    and the timer callback as they were.  The only exit is in the
    bootstrap. *)
Theorem run_events_never_exits
    (keyb_not_ready : Z) (es : list machine_event) (m : Machine) :
  ∃ m', run_events keyb_not_ready es m = Returned tt m' ∧ wiring m' = wiring m.
Proof.
  revert m. induction es as [|e es IH]; intros m; [eexists; split; reflexivity|].
  cbn [run_events]. cbv [mbind M_bind].
  destruct (run_event_wiring keyb_not_ready e m) as (m1 & -> & Hw1).
  destruct (IH m1) as (m' & -> & Hw).
  exists m'. split; [reflexivity | congruence].
Qed.
